(** * Buy vs. Rent calculator: the net-worth projection of [App.jsx]

    The calculator is one React component; everything it computes sits
    between the [// Calculations] comment and the [winner] constant.  This
    file embeds that computation twice, once for each revision of the
    component that the repository carries:

    - [App]     : [src/App.jsx]          (closing and ownership costs on the
                                          buy side, savings floored at zero);
    - [Part002] : [unnamed/part_002]     (equity-only buy side, signed
                                          savings, linear zero-rate payoff).

    Numbers.  A JavaScript number is modelled exactly on its finite values:
    the inputs and every quantity built from them with [+], [-], [*], a
    division by a non-zero literal, or [Math.pow] with a non-negative integer
    exponent (or a base above one) are rationals of type [Q].  Quantities
    that sit downstream of a division by a computed value are of type
    [JSNumber.num], the rationals extended with [Infinity], [-Infinity] and
    [NaN] under the IEEE-754 rules for those values.  Rounding error,
    overflow and the sign of zero are not modelled. *)

From Stdlib Require Import ZArith QArith Qround Qpower Qminmax.
From Stdlib Require Import List Bool Lia Lqa Setoid Morphisms.
From Stdlib Require Import Qabs.
From Stdlib Require Strings.String Strings.Ascii.
From Stdlib Require Numbers.DecimalString Numbers.DecimalZ Numbers.DecimalPos.
From Stdlib Require Lists.Finite.
Import ListNotations.

Local Open Scope Q_scope.

(* ================================================================= *)
(** ** JavaScript numbers *)

Module JSNumber.

Inductive num : Type :=
| Fin (q : Q)
| PInf
| NInf
| NaN.

(** The non-finite result that carries the sign read off a comparison with
    zero; [Eq] is the indeterminate form. *)
Definition sgn_inf (c : comparison) : num :=
  match c with
  | Gt => PInf
  | Lt => NInf
  | Eq => NaN
  end.

Definition nadd (x y : num) : num :=
  match x, y with
  | Fin a, Fin b => Fin (a + b)
  | NaN, _ | _, NaN => NaN
  | PInf, NInf | NInf, PInf => NaN
  | PInf, _ | _, PInf => PInf
  | NInf, _ | _, NInf => NInf
  end.

Definition nsub (x y : num) : num :=
  match x, y with
  | Fin a, Fin b => Fin (a - b)
  | NaN, _ | _, NaN => NaN
  | PInf, PInf | NInf, NInf => NaN
  | PInf, _ | _, NInf => PInf
  | NInf, _ | _, PInf => NInf
  end.

Definition nmul (x y : num) : num :=
  match x, y with
  | Fin a, Fin b => Fin (a * b)
  | NaN, _ | _, NaN => NaN
  | Fin a, PInf | PInf, Fin a => sgn_inf (a ?= 0)
  | Fin a, NInf | NInf, Fin a => sgn_inf (0 ?= a)
  | PInf, PInf | NInf, NInf => PInf
  | PInf, NInf | NInf, PInf => NInf
  end.

(** [x / y].  A finite value over zero is [Infinity] with the sign of the
    numerator, and [0 / 0] is [NaN]. *)
Definition ndiv (x y : num) : num :=
  match x, y with
  | Fin a, Fin b => if Qeq_bool b 0 then sgn_inf (a ?= 0) else Fin (a / b)
  | NaN, _ | _, NaN => NaN
  | Fin _, _ => Fin 0
  | PInf, Fin b => if Qle_bool 0 b then PInf else NInf
  | NInf, Fin b => if Qle_bool 0 b then NInf else PInf
  | _, _ => NaN
  end.

(** [Math.max(x, y)]: [NaN] as soon as one argument is. *)
Definition nmax (x y : num) : num :=
  match x, y with
  | NaN, _ | _, NaN => NaN
  | PInf, _ | _, PInf => PInf
  | NInf, z | z, NInf => z
  | Fin a, Fin b => Fin (Qmax a b)
  end.

(** [Math.round(x)] is [floor(x + 0.5)]; the non-finite values are kept. *)
Definition nround (x : num) : num :=
  match x with
  | Fin q => Fin (inject_Z (Qfloor (q + (1 # 2))))
  | _ => x
  end.

(** Comparison; [None] when an operand is [NaN]. *)
Definition ncompare (x y : num) : option comparison :=
  match x, y with
  | NaN, _ | _, NaN => None
  | Fin a, Fin b => Some (a ?= b)
  | PInf, PInf | NInf, NInf => Some Eq
  | PInf, _ | _, NInf => Some Gt
  | NInf, _ | _, PInf => Some Lt
  end.

(** [x > y] and [x >= y]. *)
Definition ngt (x y : num) : bool :=
  match ncompare x y with
  | Some Gt => true
  | _ => false
  end.


(** Equality of numbers up to the representation of a rational. *)
Definition num_eq (x y : num) : Prop :=
  match x, y with
  | Fin a, Fin b => a == b
  | PInf, PInf | NInf, NInf | NaN, NaN => True
  | _, _ => False
  end.



End JSNumber.

Import JSNumber.

Declare Scope num_scope.
Delimit Scope num_scope with num.
Bind Scope num_scope with num.
Infix "+" := nadd : num_scope.
Infix "-" := nsub : num_scope.
Infix "*" := nmul : num_scope.
Infix "/" := ndiv : num_scope.

(** [a > b] on rationals. *)
Definition Qgtb (a b : Q) : bool := negb (Qle_bool a b).

(** [xs[i]] for an integer index: [undefined] outside the array. *)
Definition array_get {A : Type} (xs : list A) (i : Z) : option A :=
  if (i <? 0)%Z then None else nth_error xs (Z.to_nat i).

(** [undefined] turns into [NaN] where a number is expected. *)
Definition to_number (v : option num) : num :=
  match v with
  | Some x => x
  | None => NaN
  end.

(* ================================================================= *)
(** ** The input record *)

Record Inputs : Type := {
  homePrice : Q;
  downPayment : Q;
  mortgageRate : Q;
  mortgageTerm : Z;
  homeAppreciation : Q;
  initialRent : Q;
  rentIncrease : Q;
  investmentReturn : Q;
  timeHorizon : Z;
  closingCostsPercent : Q;
  sellingCostsPercent : Q;
  annualOwnershipPercent : Q
}.

Definition DEFAULT_VALUES : Inputs := {|
  homePrice := 500000;
  downPayment := 100000;
  mortgageRate := 6.5;
  mortgageTerm := 30;
  homeAppreciation := 3;
  initialRent := 2500;
  rentIncrease := 3;
  investmentReturn := 7;
  timeHorizon := 10;
  closingCostsPercent := 3;
  sellingCostsPercent := 6;
  annualOwnershipPercent := 1.5
|}.

Inductive Winner : Type :=
| RentAndInvest   (* 'Rent & Invest' *)
| Buy.            (* 'Buy' *)

(** What the component hands to the chart and to the summary. *)
Record Projection : Type := {
  years : list Z;
  buyNetWorth : list num;
  rentNetWorth : list num;
  finalBuy : option num;
  finalRent : option num;
  difference : num;
  winner : Winner
}.

(** The variables of the year loop. *)
Module Loop.
Record State : Type := {
  year : Z;
  currentRent : Q;
  cumulativeSavings : num;
  remainingLoanBalance : num;
  buyNetWorth : list num;
  rentNetWorth : list num
}.
End Loop.

(* ================================================================= *)
(** ** The constants computed before the loop

    Lines 59-72 of [src/App.jsx]; [unnamed/part_002] has the same lines. *)

Section Calculations.

Variable values : Inputs.

Definition loanAmount : Q := Qmax 0 (homePrice values - downPayment values).

Definition monthlyRate : Q := mortgageRate values / 100 / 12.

Definition numPayments : Z := (mortgageTerm values * 12)%Z.

Definition monthlyMortgage : num :=
  if Qgtb monthlyRate 0
  then (Fin (loanAmount * monthlyRate * (1 + monthlyRate) ^ numPayments)
        / Fin ((1 + monthlyRate) ^ numPayments - 1))%num
  else (Fin loanAmount / Fin (inject_Z numPayments))%num.

Definition monthlyOwnershipExtra : Q :=
  (homePrice values * annualOwnershipPercent values) / 100 / 12.

Definition totalMonthlyOwnership : num :=
  (monthlyMortgage + Fin monthlyOwnershipExtra)%num.

Definition closingCost : Q :=
  homePrice values * (closingCostsPercent values / 100).

(** [Array.from({ length: timeHorizon + 1 }, (_, i) => i)] *)
Definition years_array : list Z :=
  map Z.of_nat (seq 0 (Z.to_nat (timeHorizon values + 1))).

Definition homeValue (year : Z) : Q :=
  homePrice values * (1 + homeAppreciation values / 100) ^ year.

Definition sellingCost (year : Z) : Q :=
  if (year =? timeHorizon values)%Z
  then homeValue year * (sellingCostsPercent values / 100)
  else 0.

Definition investedInitial (year : Z) : Q :=
  let initialInvestment := downPayment values + closingCost in
  initialInvestment * (1 + investmentReturn values / 100) ^ year.

Definition loop_init : Loop.State := {|
  Loop.year := 0;
  Loop.currentRent := initialRent values;
  Loop.cumulativeSavings := Fin 0;
  Loop.remainingLoanBalance := Fin loanAmount;
  Loop.buyNetWorth := [];
  Loop.rentNetWorth := []
|}.

(** [for (let year = 0; year <= timeHorizon; year++) body]: the guard is
    tested before each pass and the counter stepped after it. *)
Definition next_year (s : Loop.State) : Loop.State := {|
  Loop.year := Loop.year s + 1;
  Loop.currentRent := Loop.currentRent s;
  Loop.cumulativeSavings := Loop.cumulativeSavings s;
  Loop.remainingLoanBalance := Loop.remainingLoanBalance s;
  Loop.buyNetWorth := Loop.buyNetWorth s;
  Loop.rentNetWorth := Loop.rentNetWorth s
|}.

Fixpoint for_loop (body : Loop.State -> Loop.State) (fuel : nat)
    (s : Loop.State) : Loop.State :=
  match fuel with
  | O => s
  | S k =>
      if (Loop.year s <=? timeHorizon values)%Z
      then for_loop body k (next_year (body s))
      else s
  end.

(** The lines after the loop (129-132). *)
Definition summarise (s : Loop.State) : Projection :=
  let finalBuy := array_get (Loop.buyNetWorth s) (timeHorizon values) in
  let finalRent := array_get (Loop.rentNetWorth s) (timeHorizon values) in
  let difference := (to_number finalRent - to_number finalBuy)%num in
  {| years := years_array;
     buyNetWorth := Loop.buyNetWorth s;
     rentNetWorth := Loop.rentNetWorth s;
     finalBuy := finalBuy;
     finalRent := finalRent;
     difference := difference;
     winner := if ngt difference (Fin 0) then RentAndInvest else Buy |}.

End Calculations.

(* ================================================================= *)
(** ** [src/App.jsx] *)

Module App.

Section Engine.

Variable values : Inputs.

(** Lines 87-97: the balance is recomputed only in a year after the
    purchase and only under a positive rate; otherwise the variable keeps
    the value it had. *)
Definition balance_update (year : Z) (remainingLoanBalance : num) : num :=
  if (0 <? year)%Z && Qgtb (monthlyRate values) 0 then
    let paymentsMade := (year * 12)%Z in
    let remainingPayments := Z.max 0 (numPayments values - paymentsMade) in
    if (0 <? remainingPayments)%Z then
      (Fin (loanAmount values
            * ((1 + monthlyRate values) ^ numPayments values
               - (1 + monthlyRate values) ^ paymentsMade))
       / Fin ((1 + monthlyRate values) ^ numPayments values - 1))%num
    else Fin 0
  else remainingLoanBalance.

Definition cumulativeOwnershipCosts (year : Z) : Q :=
  monthlyOwnershipExtra values * 12 * inject_Z year.

(** Line 108. *)
Definition buyNet (year : Z) (remainingLoanBalance : num) : num :=
  (Fin (homeValue values year) - remainingLoanBalance
   - Fin (sellingCost values year)
   - Fin (if (year =? 0)%Z then closingCost values else 0)
   - Fin (cumulativeOwnershipCosts year))%num.

(** Line 118. *)
Definition yearlySavings (currentRent : Q) : num :=
  nmax (Fin 0)
       (totalMonthlyOwnership values * Fin 12 - Fin (currentRent * 12))%num.

(** Lines 117-122. *)
Definition savings_update (year : Z) (currentRent : Q)
    (cumulativeSavings : num) : num :=
  if (0 <? year)%Z
  then ((cumulativeSavings + yearlySavings currentRent)
        * Fin (1 + investmentReturn values / 100))%num
  else cumulativeSavings.

(** Line 126. *)
Definition rent_update (year : Z) (currentRent : Q) : Q :=
  if (year <? timeHorizon values)%Z
  then currentRent * (1 + rentIncrease values / 100)
  else currentRent.

(** One pass through the loop body (lines 81-126). *)
Definition body (s : Loop.State) : Loop.State :=
  let year := Loop.year s in
  let remainingLoanBalance :=
    balance_update year (Loop.remainingLoanBalance s) in
  let cumulativeSavings :=
    savings_update year (Loop.currentRent s) (Loop.cumulativeSavings s) in
  {| Loop.year := year;
     Loop.currentRent := rent_update year (Loop.currentRent s);
     Loop.cumulativeSavings := cumulativeSavings;
     Loop.remainingLoanBalance := remainingLoanBalance;
     Loop.buyNetWorth :=
       Loop.buyNetWorth s
       ++ [nround (nmax (Fin 0) (buyNet year remainingLoanBalance))];
     Loop.rentNetWorth :=
       Loop.rentNetWorth s
       ++ [nround (Fin (investedInitial values year) + cumulativeSavings)%num]
  |}.

(** The loop variables after [k] passes. *)
Definition state_at (k : nat) : Loop.State :=
  for_loop values body k (loop_init values).

Definition final_state : Loop.State :=
  state_at (Z.to_nat (timeHorizon values + 1)).

Definition project : Projection := summarise values final_state.

(** The balance assignment of year [y] applied to the initial balance, and
    the buy-side entry computed from it; the invariants below show that
    these are the balance the pass of year [y] works with and the entry it
    pushes. *)
Definition balance_at (y : Z) : num :=
  balance_update y (Fin (loanAmount values)).

Definition buy_entry (y : Z) : num :=
  nround (nmax (Fin 0) (buyNet y (balance_at y))).

End Engine.

End App.

(* ================================================================= *)
(** ** [unnamed/part_002] *)

Module Part002.

Section Engine.

Variable values : Inputs.

(** Lines 100-113: paid off once the payments made reach the number of
    payments, amortised under a positive rate, linear otherwise. *)
Definition balance_update (year : Z) (remainingLoanBalance : num) : num :=
  if (0 <? year)%Z then
    let paymentsMade := (year * 12)%Z in
    if (numPayments values <=? paymentsMade)%Z then Fin 0
    else if Qgtb (monthlyRate values) 0 then
      (Fin (loanAmount values
            * ((1 + monthlyRate values) ^ numPayments values
               - (1 + monthlyRate values) ^ paymentsMade))
       / Fin ((1 + monthlyRate values) ^ numPayments values - 1))%num
    else
      (Fin (loanAmount values)
       * (Fin 1 - Fin (inject_Z paymentsMade)
                  / Fin (inject_Z (numPayments values))))%num
  else remainingLoanBalance.

(** Line 122. *)
Definition buyNet (year : Z) (remainingLoanBalance : num) : num :=
  (Fin (homeValue values year) - remainingLoanBalance
   - Fin (sellingCost values year))%num.

(** Line 132. *)
Definition yearlySavings (currentRent : Q) : num :=
  (totalMonthlyOwnership values * Fin 12 - Fin (currentRent * 12))%num.

(** Lines 131-138. *)
Definition savings_update (year : Z) (currentRent : Q)
    (cumulativeSavings : num) : num :=
  if (0 <? year)%Z
  then ((cumulativeSavings + yearlySavings currentRent)
        * Fin (1 + investmentReturn values / 100))%num
  else cumulativeSavings.

Definition rent_update (year : Z) (currentRent : Q) : Q :=
  if (0 <? year)%Z
  then currentRent * (1 + rentIncrease values / 100)
  else currentRent.

(** One pass through the loop body (lines 95-141). *)
Definition body (s : Loop.State) : Loop.State :=
  let year := Loop.year s in
  let remainingLoanBalance :=
    balance_update year (Loop.remainingLoanBalance s) in
  let cumulativeSavings :=
    savings_update year (Loop.currentRent s) (Loop.cumulativeSavings s) in
  {| Loop.year := year;
     Loop.currentRent := rent_update year (Loop.currentRent s);
     Loop.cumulativeSavings := cumulativeSavings;
     Loop.remainingLoanBalance := remainingLoanBalance;
     Loop.buyNetWorth :=
       Loop.buyNetWorth s
       ++ [nround (nmax (Fin 0) (buyNet year remainingLoanBalance))];
     Loop.rentNetWorth :=
       Loop.rentNetWorth s
       ++ [nround (Fin (investedInitial values year) + cumulativeSavings)%num]
  |}.

Definition state_at (k : nat) : Loop.State :=
  for_loop values body k (loop_init values).

Definition final_state : Loop.State :=
  state_at (Z.to_nat (timeHorizon values + 1)).

Definition project : Projection := summarise values final_state.

(** The balance assignment of year [y] applied to the initial balance. *)
Definition balance_at (y : Z) : num :=
  balance_update y (Fin (loanAmount values)).

End Engine.

End Part002.

(* ================================================================= *)
(** ** [unnamed/part_001]

    The earliest revision: no balance is carried, the closing cost is
    charged in the final year, and savings accrue from year 0 on.  The
    constants before the loop are those of [src/App.jsx] (lines 58-67
    here), without [closingCost]. *)

Module Part001.

Section Engine.

Variable values : Inputs.

(** Line 78. *)
Definition closingCost (year : Z) : Q :=
  if (year =? timeHorizon values)%Z
  then homePrice values * (closingCostsPercent values / 100)
  else 0.

(** Line 79. *)
Definition cumulativeExtra (year : Z) : Q :=
  monthlyOwnershipExtra values * 12 * inject_Z year.

(** Line 81. *)
Definition buyNet (year : Z) : Q :=
  homeValue values year - loanAmount values - sellingCost values year
  - closingCost year - cumulativeExtra year + downPayment values.

(** Line 84. *)
Definition investedDown (year : Z) : Q :=
  downPayment values * (1 + investmentReturn values / 100) ^ year.

(** Line 85. *)
Definition yearlySavings (currentRent : Q) : num :=
  nmax (Fin 0)
       (totalMonthlyOwnership values * Fin 12 - Fin (currentRent * 12))%num.

(** Line 86: in every year, year 0 included. *)
Definition savings_update (currentRent : Q) (cumulativeSavings : num) : num :=
  ((cumulativeSavings + yearlySavings currentRent)
   * Fin (1 + investmentReturn values / 100))%num.

(** Line 89. *)
Definition rent_update (year : Z) (currentRent : Q) : Q :=
  if (year <? timeHorizon values)%Z
  then currentRent * (1 + rentIncrease values / 100)
  else currentRent.

(** One pass through the loop body (lines 76-89).  This revision has no
    [remainingLoanBalance]; the field of the state is left as it is. *)
Definition body (s : Loop.State) : Loop.State :=
  let year := Loop.year s in
  let cumulativeSavings :=
    savings_update (Loop.currentRent s) (Loop.cumulativeSavings s) in
  {| Loop.year := year;
     Loop.currentRent := rent_update year (Loop.currentRent s);
     Loop.cumulativeSavings := cumulativeSavings;
     Loop.remainingLoanBalance := Loop.remainingLoanBalance s;
     Loop.buyNetWorth :=
       Loop.buyNetWorth s ++ [nround (nmax (Fin 0) (Fin (buyNet year)))];
     Loop.rentNetWorth :=
       Loop.rentNetWorth s
       ++ [nround (Fin (investedDown year) + cumulativeSavings)%num]
  |}.

Definition state_at (k : nat) : Loop.State :=
  for_loop values body k (loop_init values).

Definition final_state : Loop.State :=
  state_at (Z.to_nat (timeHorizon values + 1)).

Definition project : Projection := summarise values final_state.

End Engine.

End Part001.

(* ================================================================= *)
(** ** The spec's formulas, for comparison with the code *)

Module Spec.

Section Formulas.

Variable values : Inputs.

(** Section 4.3, step 4: the closing cost taken off in every year.  The
    balance is passed in, so that the comparison with the code is about
    the closing cost alone. *)
Definition buyNetWorth (year : Z) (remainingLoanBalance : num) : num :=
  nround
    (nmax (Fin 0)
          (Fin (homeValue values year) - remainingLoanBalance
           - Fin (sellingCost values year)
           - Fin (closingCost values)
           - Fin (monthlyOwnershipExtra values * 12 * inject_Z year))%num).

(** Section 4.3, step 6: the signed gap between ownership cost and rent. *)
Definition yearlySavings (currentRent : Q) : num :=
  (totalMonthlyOwnership values * Fin 12 - Fin (currentRent * 12))%num.

(** Section 4.1: the balance after [year] years, zero from the end of the
    term on and linear under a zero rate. *)
Definition remainingBalance (year : Z) : num :=
  let paymentsMade := (year * 12)%Z in
  if (numPayments values <=? paymentsMade)%Z then Fin 0
  else if Qgtb (monthlyRate values) 0 then
    (Fin (loanAmount values
          * ((1 + monthlyRate values) ^ numPayments values
             - (1 + monthlyRate values) ^ paymentsMade))
     / Fin ((1 + monthlyRate values) ^ numPayments values - 1))%num
  else
    Fin (loanAmount values
         * (1 - inject_Z paymentsMade / inject_Z (numPayments values))).

End Formulas.

End Spec.

(* ================================================================= *)
(** ** Sample inputs *)

(** A purchase with a one-year loan, kept for two years. *)
Definition one_year_loan : Inputs := {|
  homePrice := 300000;
  downPayment := 60000;
  mortgageRate := 6;
  mortgageTerm := 1;
  homeAppreciation := 0;
  initialRent := 1500;
  rentIncrease := 3;
  investmentReturn := 0;
  timeHorizon := 2;
  closingCostsPercent := 3;
  sellingCostsPercent := 6;
  annualOwnershipPercent := 0
|}.

(** A house paid in cash whose upkeep (125 a month) is far below the rent
    of a comparable home (1000 a month). *)
Definition cash_purchase : Inputs := {|
  homePrice := 100000;
  downPayment := 100000;
  mortgageRate := 6;
  mortgageTerm := 1;
  homeAppreciation := 0;
  initialRent := 1000;
  rentIncrease := 0;
  investmentReturn := 0;
  timeHorizon := 1;
  closingCostsPercent := 3;
  sellingCostsPercent := 6;
  annualOwnershipPercent := 1.5
|}.

(** A loan of 100000 at 0 % over one year, looked at for two years. *)
Definition interest_free_loan : Inputs := {|
  homePrice := 120000;
  downPayment := 20000;
  mortgageRate := 0;
  mortgageTerm := 1;
  homeAppreciation := 0;
  initialRent := 1000;
  rentIncrease := 0;
  investmentReturn := 0;
  timeHorizon := 2;
  closingCostsPercent := 0;
  sellingCostsPercent := 0;
  annualOwnershipPercent := 0
|}.


(** The default inputs, sold at once. *)
Definition no_horizon : Inputs := {|
  homePrice := 500000;
  downPayment := 100000;
  mortgageRate := 6.5;
  mortgageTerm := 30;
  homeAppreciation := 3;
  initialRent := 2500;
  rentIncrease := 3;
  investmentReturn := 7;
  timeHorizon := 0;
  closingCostsPercent := 3;
  sellingCostsPercent := 6;
  annualOwnershipPercent := 1.5
|}.

(** A cash purchase without any cost, against a rent of 500 a month: both
    scenarios end at 100000. *)
Definition break_even : Inputs := {|
  homePrice := 100000;
  downPayment := 100000;
  mortgageRate := 6;
  mortgageTerm := 1;
  homeAppreciation := 0;
  initialRent := 500;
  rentIncrease := 0;
  investmentReturn := 0;
  timeHorizon := 1;
  closingCostsPercent := 0;
  sellingCostsPercent := 0;
  annualOwnershipPercent := 0
|}.

(* ================================================================= *)
(** ** The loan schedule behind the balance formula *)

(** The balance left after [months] monthly payments of [payment], each
    month adding interest at the monthly rate [r] before the payment is
    taken off.  The code never runs this schedule; its closed formula is
    compared with it below. *)
Fixpoint pay_months (r payment : Q) (months : nat) (balance : Q) : Q :=
  match months with
  | O => balance
  | S m => pay_months r payment m balance * (1 + r) - payment
  end.

(** A loan of 240000 at 6 % over two years, looked at for three. *)
Definition two_year_loan : Inputs := {|
  homePrice := 300000;
  downPayment := 60000;
  mortgageRate := 6;
  mortgageTerm := 2;
  homeAppreciation := 2;
  initialRent := 1500;
  rentIncrease := 3;
  investmentReturn := 5;
  timeHorizon := 3;
  closingCostsPercent := 3;
  sellingCostsPercent := 6;
  annualOwnershipPercent := 1
|}.

(** [two_year_loan] with another rent, rent increase and return. *)
Definition two_year_loan_high_rent : Inputs := {|
  homePrice := 300000;
  downPayment := 60000;
  mortgageRate := 6;
  mortgageTerm := 2;
  homeAppreciation := 2;
  initialRent := 3000;
  rentIncrease := 5;
  investmentReturn := 8;
  timeHorizon := 3;
  closingCostsPercent := 3;
  sellingCostsPercent := 6;
  annualOwnershipPercent := 1
|}.

(** [two_year_loan] with another appreciation and selling cost. *)
Definition two_year_loan_boom : Inputs := {|
  homePrice := 300000;
  downPayment := 60000;
  mortgageRate := 6;
  mortgageTerm := 2;
  homeAppreciation := 10;
  initialRent := 1500;
  rentIncrease := 3;
  investmentReturn := 5;
  timeHorizon := 3;
  closingCostsPercent := 3;
  sellingCostsPercent := 0;
  annualOwnershipPercent := 1
|}.

(** Two states carry the same rent-side variables. *)
Definition same_rent_side (s1 s2 : Loop.State) : Prop :=
  Loop.year s1 = Loop.year s2
  /\ Loop.currentRent s1 = Loop.currentRent s2
  /\ Loop.cumulativeSavings s1 = Loop.cumulativeSavings s2
  /\ Loop.rentNetWorth s1 = Loop.rentNetWorth s2.

(* ================================================================= *)
(** ** The summary card *)



(** The buy-side entry of year [y] in [unnamed/part_002], computed from
    the balance assignment of that year. *)
Definition Part002_buy_entry (values : Inputs) (y : Z) : num :=
  nround (nmax (Fin 0)
            (Part002.buyNet values y (Part002.balance_at values y))).

(** A loan of 240000 at 6 % over two years without closing or ownership
    costs. *)
Definition two_year_loan_no_costs : Inputs := {|
  homePrice := 300000;
  downPayment := 60000;
  mortgageRate := 6;
  mortgageTerm := 2;
  homeAppreciation := 2;
  initialRent := 1500;
  rentIncrease := 3;
  investmentReturn := 5;
  timeHorizon := 3;
  closingCostsPercent := 0;
  sellingCostsPercent := 6;
  annualOwnershipPercent := 0
|}.


(* ================================================================= *)
(** ** The component around the calculation

    The state of the form, the labels of the fields and of the chart.
    Strings are strings of 8-bit characters; [toUpperCase] is modelled on
    the 7-bit ones only, which is all the field names contain.
    [JSON.parse] and the conversion [Number(text)] belong to the host and
    are parameters. *)

Module UI.

Import Stdlib.Strings.String Stdlib.Strings.Ascii.
Local Open Scope string_scope.

(** *** The chart (lines 134-140) *)

(** [`${y}`] for an integer [y]. *)
Definition number_text (y : Z) : string :=
  DecimalString.NilZero.string_of_int (Z.to_int y).

(** [`Year ${y}`] *)
Definition year_label (y : Z) : string := "Year " ++ number_text y.

(** [labels: years.map(y => `Year ${y}`)] *)
Definition chart_labels (r : Projection) : list string :=
  List.map year_label (years r).

(** *** Field labels (line 175) *)

Definition is_upper (c : ascii) : bool :=
  ((65 <=? nat_of_ascii c) && (nat_of_ascii c <=? 90))%nat.

Definition is_lower (c : ascii) : bool :=
  ((97 <=? nat_of_ascii c) && (nat_of_ascii c <=? 122))%nat.

(** [c.toUpperCase()] for a 7-bit character. *)
Definition toUpperCase (c : ascii) : ascii :=
  if is_lower c then ascii_of_nat (nat_of_ascii c - 32) else c.

(** [key.replace(/([A-Z])/g, ' $1')] *)
Fixpoint space_capitals (s : string) : string :=
  match s with
  | EmptyString => EmptyString
  | String c rest =>
      if is_upper c
      then String " " (String c (space_capitals rest))
      else String c (space_capitals rest)
  end.

(** [.] in a regular expression matches anything but a line terminator. *)
Definition is_line_terminator (c : ascii) : bool :=
  ((c =? "010") || (c =? "013"))%char.

(** [s.replace(/^./, c => c.toUpperCase())] *)
Definition capitalize_first (s : string) : string :=
  match s with
  | EmptyString => EmptyString
  | String c rest =>
      if is_line_terminator c then s else String (toUpperCase c) rest
  end.

Definition formatLabel (key : string) : string :=
  capitalize_first (space_capitals key).

(** *** Units of the core fields (lines 193-206) *)

(** [s.includes(sub)] *)
Fixpoint includes (s sub : string) : bool :=
  prefix sub s
  || match s with
     | EmptyString => false
     | String _ rest => includes rest sub
     end.

Definition core_keys : list string :=
  ["homePrice"; "downPayment"; "mortgageRate"; "mortgageTerm";
   "homeAppreciation"; "initialRent"; "rentIncrease"; "investmentReturn";
   "timeHorizon"]%list.

Definition advanced_keys : list string :=
  ["closingCostsPercent"; "sellingCostsPercent";
   "annualOwnershipPercent"]%list.

Definition isCurrency (key : string) : bool :=
  includes key "Rent" || includes key "Price" || includes key "Payment".

Definition isPercentage (key : string) : bool :=
  includes key "Rate" || includes key "Increase"
  || includes key "Appreciation" || includes key "Return".

Definition isYears (key : string) : bool :=
  includes key "Term" || includes key "Horizon".

(** [isPercentage ? ' (%)' : isCurrency ? ' ($)' : ' (years)'] *)
Definition unit_suffix (key : string) : string :=
  if isPercentage key then " (%)"
  else if isCurrency key then " ($)"
  else " (years)".

(** [step={isPercentage ? '0.1' : '1'}] *)
Definition step (key : string) : string :=
  if isPercentage key then "0.1" else "1".

(** *** The state of the form (lines 19-56) *)

#[local] Unset Elimination Schemes.

Inductive JSValue : Type :=
| VNumber (x : num)
| VString (s : string)
| VBool (b : bool)
| VNull
| VArray (items : list JSValue)
| VObject (props : list (string * JSValue)).

#[local] Set Elimination Schemes.

(** An object is the list of its properties, in insertion order. *)
Definition Obj : Type := list (string * JSValue).

(** [o[k]]: the value written last under [k], [None] for [undefined]. *)
Fixpoint get (k : string) (o : Obj) : option JSValue :=
  match o with
  | nil => None
  | (k', v) :: rest =>
      match get k rest with
      | Some w => Some w
      | None => if k' =? k then Some v else None
      end
  end.

(** [o[k] = v]: an existing key keeps its place, a new one goes last. *)
Fixpoint set (k : string) (v : JSValue) (o : Obj) : Obj :=
  match o with
  | nil => [(k, v)]%list
  | (k', w) :: rest =>
      if k' =? k then (k', v) :: List.filter (fun p => negb (fst p =? k)) rest
      else (k', w) :: set k v rest
  end.

(** The own enumerable properties that a spread copies: those of an
    object, the indices of an array or of a string, none for a number, a
    boolean or [null]. *)
Definition index_keys (n : nat) : list string :=
  List.map (fun i => number_text (Z.of_nat i)) (seq 0 n).

Fixpoint characters (s : string) : list JSValue :=
  match s with
  | EmptyString => nil
  | String c rest => VString (String c EmptyString) :: characters rest
  end.

Definition own_props (v : JSValue) : Obj :=
  match v with
  | VObject props => props
  | VArray items => List.combine (index_keys (List.length items)) items
  | VString s => List.combine (index_keys (length s)) (characters s)
  | VNumber _ | VBool _ | VNull => nil
  end.

(** [{ ...a, ...b }] *)
Definition spread (a b : Obj) : Obj :=
  List.fold_left (fun o p => set (fst p) (snd p) o) (a ++ b)%list nil.

Definition DEFAULT_OBJECT : Obj :=
  [("homePrice", VNumber (Fin 500000));
   ("downPayment", VNumber (Fin 100000));
   ("mortgageRate", VNumber (Fin 6.5));
   ("mortgageTerm", VNumber (Fin 30));
   ("homeAppreciation", VNumber (Fin 3));
   ("initialRent", VNumber (Fin 2500));
   ("rentIncrease", VNumber (Fin 3));
   ("investmentReturn", VNumber (Fin 7));
   ("timeHorizon", VNumber (Fin 10));
   ("closingCostsPercent", VNumber (Fin 3));
   ("sellingCostsPercent", VNumber (Fin 6));
   ("annualOwnershipPercent", VNumber (Fin 1.5))]%list.

Definition field_names : list string := List.map fst DEFAULT_OBJECT.

Section Host.

(** [JSON.parse(text)], [None] when it throws. *)
Variable JSON_parse : string -> option JSValue.

(** [Number(text)] *)
Variable ToNumber : string -> num.

(** The initializer of [useState] (lines 35-45); [saved] is what
    [localStorage.getItem] returned, [None] for [null]. *)
Definition initial_values (saved : option string) : Obj :=
  match saved with
  | Some text =>
      if text =? "" then DEFAULT_OBJECT
      else
        match JSON_parse text with
        | Some parsed => spread DEFAULT_OBJECT (own_props parsed)
        | None => DEFAULT_OBJECT
        end
  | None => DEFAULT_OBJECT
  end.

(** [handleChange(key)] applied to an event whose [target.value] is
    [text] (lines 53-56). *)
Definition handleChange (key text : string) (prev : Obj) : Obj :=
  let val := if text =? "" then VString "" else VNumber (ToNumber text) in
  spread prev [(key, val)]%list.

End Host.

End UI.

(* ================================================================= *)
(** ** Facts about numbers *)

Section NumFacts.

Lemma num_eq_refl (x : num) : num_eq x x.
Proof. destruct x; simpl; auto with qarith. Qed.

Lemma num_eq_sym (x y : num) : num_eq x y -> num_eq y x.
Proof. destruct x, y; simpl; auto with qarith. Qed.

Lemma num_eq_trans (x y z : num) : num_eq x y -> num_eq y z -> num_eq x z.
Proof.
  destruct x, y, z; simpl; try tauto.
  intros H1 H2. now rewrite H1.
Qed.

#[export] Instance num_eq_equiv : Equivalence num_eq.
Proof.
  split; [exact num_eq_refl | exact num_eq_sym | exact num_eq_trans].
Qed.

Lemma sgn_inf_compare (a b c d : Q) :
  a == c -> b == d -> sgn_inf (a ?= b) = sgn_inf (c ?= d).
Proof.
  intros H1 H2. now rewrite (Qcompare_comp _ _ H1 _ _ H2).
Qed.

#[export] Instance nadd_proper : Proper (num_eq ==> num_eq ==> num_eq) nadd.
Proof.
  intros [a| | |] [b| | |] H1 [c| | |] [d| | |] H2;
    simpl in *; try tauto.
  now rewrite H1, H2.
Qed.

#[export] Instance nsub_proper : Proper (num_eq ==> num_eq ==> num_eq) nsub.
Proof.
  intros [a| | |] [b| | |] H1 [c| | |] [d| | |] H2;
    simpl in *; try tauto.
  now rewrite H1, H2.
Qed.

#[export] Instance nmul_proper : Proper (num_eq ==> num_eq ==> num_eq) nmul.
Proof.
  intros [a| | |] [b| | |] H1 [c| | |] [d| | |] H2;
    simpl in *; try tauto;
    try (rewrite (sgn_inf_compare _ _ _ _ H1 (Qeq_refl 0)); reflexivity);
    try (rewrite (sgn_inf_compare _ _ _ _ H2 (Qeq_refl 0)); reflexivity);
    try (rewrite (sgn_inf_compare _ _ _ _ (Qeq_refl 0) H1); reflexivity);
    try (rewrite (sgn_inf_compare _ _ _ _ (Qeq_refl 0) H2); reflexivity).
  now rewrite H1, H2.
Qed.

#[export] Instance nmax_proper : Proper (num_eq ==> num_eq ==> num_eq) nmax.
Proof.
  intros [a| | |] [b| | |] H1 [c| | |] [d| | |] H2;
    simpl in *; try tauto.
  now rewrite H1, H2.
Qed.

(** Rounding forgets the representation: equal numbers round to the very
    same term. *)
Lemma nround_eq (x y : num) : num_eq x y -> nround x = nround y.
Proof.
  destruct x, y; cbn [num_eq nround]; try tauto.
  intros H. now rewrite H.
Qed.

Lemma Qgtb_true (a b : Q) : Qgtb a b = true <-> b < a.
Proof.
  unfold Qgtb. rewrite negb_true_iff, <- not_true_iff_false, Qle_bool_iff.
  split; [apply Qnot_le_lt | apply Qlt_not_le].
Qed.

Lemma Qgtb_false (a b : Q) : Qgtb a b = false <-> a <= b.
Proof.
  unfold Qgtb. rewrite negb_false_iff. apply Qle_bool_iff.
Qed.

Lemma ndiv_finite (a b : Q) : ~ b == 0 -> (Fin a / Fin b)%num = Fin (a / b).
Proof.
  intros Hb. simpl.
  destruct (Qeq_bool b 0) eqn:E; [|reflexivity].
  apply Qeq_bool_eq in E. contradiction.
Qed.







End NumFacts.

(* ================================================================= *)
(** ** The [for] loop *)

Section LoopFacts.

Variable values : Inputs.
Variable body : Loop.State -> Loop.State.
Hypothesis body_year : forall s, Loop.year (body s) = Loop.year s.

Let H := timeHorizon values.

(** While the guard holds, one more unit of fuel is one more pass. *)
Lemma for_loop_snoc (k : nat) (s : Loop.State) :
  (Loop.year s + Z.of_nat k <= H)%Z ->
  for_loop values body (S k) s
  = next_year (body (for_loop values body k s)).
Proof.
  revert s. induction k as [|k IH]; intros s Hle.
  - cbn [for_loop].
    destruct (Loop.year s <=? timeHorizon values)%Z eqn:E; [reflexivity|].
    apply Z.leb_gt in E. unfold H in Hle. lia.
  - change (for_loop values body (S (S k)) s)
      with (if (Loop.year s <=? timeHorizon values)%Z
            then for_loop values body (S k) (next_year (body s)) else s).
    change (for_loop values body (S k) s)
      with (if (Loop.year s <=? timeHorizon values)%Z
            then for_loop values body k (next_year (body s)) else s).
    destruct (Loop.year s <=? timeHorizon values)%Z eqn:E.
    + apply IH. cbn [next_year Loop.year]. rewrite body_year. lia.
    + apply Z.leb_gt in E. unfold H in Hle. lia.
Qed.

Lemma for_loop_year (k : nat) (s : Loop.State) :
  (Loop.year s + Z.of_nat k <= H + 1)%Z ->
  Loop.year (for_loop values body k s) = (Loop.year s + Z.of_nat k)%Z.
Proof.
  induction k as [|k IH]; intros Hle.
  - cbn [for_loop]. lia.
  - rewrite for_loop_snoc by lia.
    cbn [next_year Loop.year]. rewrite body_year, IH by lia. lia.
Qed.

(** Once the guard fails the state no longer changes, whatever fuel is
    left. *)
Lemma for_loop_done (k : nat) (s : Loop.State) :
  (H < Loop.year s)%Z -> for_loop values body k s = s.
Proof.
  intros Hlt. destruct k as [|k]; [reflexivity|].
  cbn [for_loop].
  destruct (Loop.year s <=? timeHorizon values)%Z eqn:E; [|reflexivity].
  apply Z.leb_le in E. unfold H in Hlt. lia.
Qed.

Lemma for_loop_add (j k : nat) (s : Loop.State) :
  for_loop values body (j + k) s
  = for_loop values body k (for_loop values body j s).
Proof.
  revert s. induction j as [|j IH]; intros s; [reflexivity|].
  cbn [Nat.add for_loop].
  destruct (Loop.year s <=? timeHorizon values)%Z eqn:E.
  - apply IH.
  - symmetry. apply for_loop_done. apply Z.leb_gt in E. exact E.
Qed.

(** The loop started at year 0 leaves through its guard after
    [timeHorizon + 1] passes (none when the horizon is negative). *)
Lemma for_loop_exit (s : Loop.State) :
  Loop.year s = 0%Z ->
  (H < Loop.year (for_loop values body (Z.to_nat (H + 1)) s))%Z.
Proof.
  intros Hs.
  destruct (Z.le_gt_cases 0 (H + 1)) as [Hle|Hlt].
  - rewrite for_loop_year; rewrite Hs, Z2Nat.id; lia.
  - replace (Z.to_nat (H + 1)) with O by lia. cbn [for_loop]. lia.
Qed.

(** More fuel than [timeHorizon + 1] gives the same final state. *)
Lemma for_loop_fuel (extra : nat) (s : Loop.State) :
  Loop.year s = 0%Z ->
  for_loop values body (Z.to_nat (H + 1) + extra) s
  = for_loop values body (Z.to_nat (H + 1)) s.
Proof.
  intros Hs. rewrite for_loop_add.
  apply for_loop_done, for_loop_exit, Hs.
Qed.

End LoopFacts.

(* ================================================================= *)
(** ** Invariants of the loop of [src/App.jsx] *)

Section AppFacts.

Variable values : Inputs.

Let H := timeHorizon values.

Lemma App_body_year (s : Loop.State) :
  Loop.year (App.body values s) = Loop.year s.
Proof. reflexivity. Qed.

Lemma App_state_at_S (k : nat) :
  (Z.of_nat k <= H)%Z ->
  App.state_at values (S k)
  = next_year (App.body values (App.state_at values k)).
Proof.
  intros Hk. unfold App.state_at.
  apply for_loop_snoc; [exact App_body_year|].
  cbn [loop_init Loop.year]. fold H. lia.
Qed.

Lemma App_state_at_year (k : nat) :
  (Z.of_nat k <= H + 1)%Z ->
  Loop.year (App.state_at values k) = Z.of_nat k.
Proof.
  intros Hk. unfold App.state_at.
  rewrite for_loop_year; [reflexivity | exact App_body_year |].
  cbn [loop_init Loop.year]. fold H. lia.
Qed.

Lemma App_balance_update_twice (y y' : Z) :
  (y' < y)%Z ->
  App.balance_update values y (App.balance_at values y')
  = App.balance_at values y.
Proof.
  intros Hlt. unfold App.balance_at, App.balance_update.
  destruct (0 <? y)%Z eqn:Ey; cbn [andb].
  - destruct (Qgtb (monthlyRate values) 0); [reflexivity|].
    now rewrite andb_false_r.
  - apply Z.ltb_ge in Ey.
    replace (0 <? y')%Z with false; [reflexivity|].
    symmetry. apply Z.ltb_ge. lia.
Qed.

Lemma App_state_at_balance (k : nat) :
  (Z.of_nat k <= H + 1)%Z ->
  Loop.remainingLoanBalance (App.state_at values k)
  = App.balance_at values (Z.of_nat k - 1).
Proof.
  induction k as [|k IH]; intros Hk.
  - reflexivity.
  - rewrite App_state_at_S by lia.
    cbn [next_year App.body Loop.remainingLoanBalance].
    rewrite App_state_at_year, IH by lia.
    replace (Z.of_nat (S k) - 1)%Z with (Z.of_nat k) by lia.
    apply App_balance_update_twice. lia.
Qed.

Lemma App_state_at_buyNetWorth (k : nat) :
  (Z.of_nat k <= H + 1)%Z ->
  Loop.buyNetWorth (App.state_at values k)
  = map (fun i => App.buy_entry values (Z.of_nat i)) (seq 0 k).
Proof.
  induction k as [|k IH]; intros Hk.
  - reflexivity.
  - rewrite App_state_at_S by lia.
    cbn [next_year App.body Loop.buyNetWorth].
    rewrite App_state_at_year, App_state_at_balance, IH by lia.
    rewrite seq_S, map_app. cbn [map Nat.add].
    unfold App.buy_entry. now rewrite App_balance_update_twice by lia.
Qed.

Lemma App_savings_step (k : nat) :
  (0 < Z.of_nat k <= H)%Z ->
  Loop.cumulativeSavings (App.state_at values (S k))
  = ((Loop.cumulativeSavings (App.state_at values k)
      + App.yearlySavings values
          (Loop.currentRent (App.state_at values k)))
     * Fin (1 + investmentReturn values / 100))%num.
Proof.
  intros Hk. rewrite App_state_at_S by lia.
  cbn [next_year App.body Loop.cumulativeSavings].
  rewrite App_state_at_year by lia.
  unfold App.savings_update.
  replace (0 <? Z.of_nat k)%Z with true
    by (symmetry; apply Z.ltb_lt; lia).
  reflexivity.
Qed.

Lemma App_state_at_rent_length (k : nat) :
  (Z.of_nat k <= H + 1)%Z ->
  length (Loop.rentNetWorth (App.state_at values k)) = k.
Proof.
  induction k as [|k IH]; intros Hk.
  - reflexivity.
  - rewrite App_state_at_S by lia.
    cbn [next_year App.body Loop.rentNetWorth].
    rewrite length_app, IH by lia. cbn [length]. lia.
Qed.

End AppFacts.

(* ================================================================= *)
(** ** The series the component produces *)

Section AppSeries.

Variable values : Inputs.

Let H := timeHorizon values.

Lemma Z_to_nat_horizon : (Z.of_nat (Z.to_nat (H + 1)) <= H + 1)%Z \/
                         Z.to_nat (H + 1) = O.
Proof. destruct (Z.le_gt_cases 0 (H + 1)); [left | right]; lia. Qed.

Lemma App_buyNetWorth_series :
  buyNetWorth (App.project values)
  = map (fun i => App.buy_entry values (Z.of_nat i))
        (seq 0 (Z.to_nat (H + 1))).
Proof.
  unfold App.project, summarise, App.final_state. cbn [buyNetWorth].
  fold H. destruct Z_to_nat_horizon as [Hle|E].
  - now apply App_state_at_buyNetWorth.
  - rewrite E. reflexivity.
Qed.

Lemma App_buyNetWorth_nth (y : Z) :
  (0 <= y <= H)%Z ->
  nth_error (buyNetWorth (App.project values)) (Z.to_nat y)
  = Some (App.buy_entry values y).
Proof.
  intros Hy. rewrite App_buyNetWorth_series, nth_error_map, nth_error_seq.
  replace (Z.to_nat y <? Z.to_nat (H + 1))%nat with true
    by (symmetry; apply Nat.ltb_lt; lia).
  cbn [option_map Nat.add]. now rewrite Z2Nat.id by lia.
Qed.

Lemma App_rentNetWorth_length :
  length (rentNetWorth (App.project values)) = Z.to_nat (H + 1).
Proof.
  unfold App.project, summarise, App.final_state. cbn [rentNetWorth].
  fold H. destruct Z_to_nat_horizon as [Hle|E].
  - now apply App_state_at_rent_length.
  - rewrite E. reflexivity.
Qed.

Lemma App_buyNetWorth_length :
  length (buyNetWorth (App.project values)) = Z.to_nat (H + 1).
Proof. now rewrite App_buyNetWorth_series, length_map, length_seq. Qed.

End AppSeries.

(* ================================================================= *)
(** ** Buy side: where the closing cost is charged *)

Example one_year_loan_buy_series :
  buyNetWorth (App.project one_year_loan)
  = [Fin 51000; Fin 300000; Fin 282000].
Proof. vm_compute. reflexivity. Qed.

Example one_year_loan_spec_year1 :
  Spec.buyNetWorth one_year_loan 1 (App.balance_at one_year_loan 1)
  = Fin 291000.
Proof. vm_compute. reflexivity. Qed.

(** C1, as stated, fails: in the entry of year 1 of [one_year_loan] the
    code reports 300000, the closing cost of 9000 not taken off, where the
    formula with the closing cost in every year gives 291000. *)
Lemma closing_cost_every_year_fails :
  ~ (forall y : Z,
        (0 <= y <= timeHorizon one_year_loan)%Z ->
        nth_error (buyNetWorth (App.project one_year_loan)) (Z.to_nat y)
        = Some (Spec.buyNetWorth one_year_loan y
                  (App.balance_at one_year_loan y))).
Proof.
  intros Hall.
  assert (Hy : (0 <= 1 <= timeHorizon one_year_loan)%Z) by (simpl; lia).
  specialize (Hall 1%Z Hy). vm_compute in Hall.
  discriminate Hall.
Qed.

(** C1 (amended): for every year [y] from 0 to [timeHorizon], the buy-side
    entry of the series is [max(0, homeValue(y) - remainingLoanBalance(y)
    - sellingCost(y) - (closingCost if y = 0, else 0)
    - monthlyOwnershipExtra * 12 * y)] rounded to the nearest unit: the
    closing cost is taken off in the entry of year 0 only. *)
Theorem buy_entry_closing_cost_in_year_0_only (values : Inputs) (y : Z) :
  (0 <= y <= timeHorizon values)%Z ->
  nth_error (buyNetWorth (App.project values)) (Z.to_nat y)
  = Some (nround
            (nmax (Fin 0)
               (Fin (homeValue values y)
                - App.balance_at values y
                - Fin (sellingCost values y)
                - Fin (if (y =? 0)%Z then closingCost values else 0)
                - Fin (monthlyOwnershipExtra values * 12 * inject_Z y))%num)).
Proof. intros Hy. now apply App_buyNetWorth_nth. Qed.

Lemma buy_entry_closing_cost_in_year_0_only_witness :
  (0 <= 1 <= timeHorizon one_year_loan)%Z /\
  nth_error (buyNetWorth (App.project one_year_loan)) (Z.to_nat 1)
  = Some (nround
            (nmax (Fin 0)
               (Fin (homeValue one_year_loan 1)
                - App.balance_at one_year_loan 1
                - Fin (sellingCost one_year_loan 1)
                - Fin (if (1 =? 0)%Z then closingCost one_year_loan else 0)
                - Fin (monthlyOwnershipExtra one_year_loan * 12
                       * inject_Z 1))%num)).
Proof.
  assert (Hy : (0 <= 1 <= timeHorizon one_year_loan)%Z) by (simpl; lia).
  split; [exact Hy|].
  exact (buy_entry_closing_cost_in_year_0_only one_year_loan 1 Hy).
Defined.

(* ================================================================= *)
(** ** Invariants of the loop of [unnamed/part_002] *)

Section Part002Facts.

Variable values : Inputs.

Let H := timeHorizon values.

Lemma Part002_body_year (s : Loop.State) :
  Loop.year (Part002.body values s) = Loop.year s.
Proof. reflexivity. Qed.

Lemma Part002_state_at_S (k : nat) :
  (Z.of_nat k <= H)%Z ->
  Part002.state_at values (S k)
  = next_year (Part002.body values (Part002.state_at values k)).
Proof.
  intros Hk. unfold Part002.state_at.
  apply for_loop_snoc; [exact Part002_body_year|].
  cbn [loop_init Loop.year]. fold H. lia.
Qed.

Lemma Part002_state_at_year (k : nat) :
  (Z.of_nat k <= H + 1)%Z ->
  Loop.year (Part002.state_at values k) = Z.of_nat k.
Proof.
  intros Hk. unfold Part002.state_at.
  rewrite for_loop_year; [reflexivity | exact Part002_body_year |].
  cbn [loop_init Loop.year]. fold H. lia.
Qed.

Lemma Part002_balance_update_twice (y y' : Z) :
  (y' < y)%Z ->
  Part002.balance_update values y (Part002.balance_at values y')
  = Part002.balance_at values y.
Proof.
  intros Hlt. unfold Part002.balance_at, Part002.balance_update.
  destruct (0 <? y)%Z eqn:Ey; [reflexivity|].
  apply Z.ltb_ge in Ey.
  replace (0 <? y')%Z with false; [reflexivity|].
  symmetry. apply Z.ltb_ge. lia.
Qed.

Lemma Part002_state_at_balance (k : nat) :
  (Z.of_nat k <= H + 1)%Z ->
  Loop.remainingLoanBalance (Part002.state_at values k)
  = Part002.balance_at values (Z.of_nat k - 1).
Proof.
  induction k as [|k IH]; intros Hk.
  - reflexivity.
  - rewrite Part002_state_at_S by lia.
    cbn [next_year Part002.body Loop.remainingLoanBalance].
    rewrite Part002_state_at_year, IH by lia.
    replace (Z.of_nat (S k) - 1)%Z with (Z.of_nat k) by lia.
    apply Part002_balance_update_twice. lia.
Qed.

Lemma Part002_savings_step (k : nat) :
  (0 < Z.of_nat k <= H)%Z ->
  Loop.cumulativeSavings (Part002.state_at values (S k))
  = ((Loop.cumulativeSavings (Part002.state_at values k)
      + Part002.yearlySavings values
          (Loop.currentRent (Part002.state_at values k)))
     * Fin (1 + investmentReturn values / 100))%num.
Proof.
  intros Hk. rewrite Part002_state_at_S by lia.
  cbn [next_year Part002.body Loop.cumulativeSavings].
  rewrite Part002_state_at_year by lia.
  unfold Part002.savings_update.
  replace (0 <? Z.of_nat k)%Z with true
    by (symmetry; apply Z.ltb_lt; lia).
  reflexivity.
Qed.

End Part002Facts.

(* ================================================================= *)
(** ** Rent side: the yearly savings *)

Example cash_purchase_spec_savings :
  num_eq
    (Spec.yearlySavings cash_purchase
       (Loop.currentRent (App.state_at cash_purchase 1)))
    (Fin (-10500)).
Proof. vm_compute. reflexivity. Qed.

Example cash_purchase_App_savings :
  num_eq
    (App.yearlySavings cash_purchase
       (Loop.currentRent (App.state_at cash_purchase 1)))
    (Fin 0).
Proof. vm_compute. reflexivity. Qed.

Example cash_purchase_App_rent_series :
  rentNetWorth (App.project cash_purchase) = [Fin 103000; Fin 103000].
Proof. vm_compute. reflexivity. Qed.

Example cash_purchase_Part002_rent_series :
  rentNetWorth (Part002.project cash_purchase) = [Fin 103000; Fin 92500].
Proof. vm_compute. reflexivity. Qed.




(* ================================================================= *)
(** ** The remaining loan balance *)

Section Balance.

Variable values : Inputs.

Lemma amortisation_denominator (n : Z) :
  0 < monthlyRate values -> (0 < n)%Z ->
  ~ (1 + monthlyRate values) ^ n - 1 == 0.
Proof.
  intros Hr Hn.
  assert (1 < (1 + monthlyRate values) ^ n)
    by (apply Qpower_1_lt; [lra | exact Hn]).
  lra.
Qed.


(** Under a positive rate the balance of [src/App.jsx] is zero from the
    end of the term on. *)
Lemma App_balance_paid_off (y : Z) :
  0 < monthlyRate values -> (0 < y)%Z ->
  (numPayments values <= y * 12)%Z ->
  App.balance_at values y = Fin 0.
Proof.
  intros Hr Hy Hn. unfold App.balance_at, App.balance_update.
  replace (0 <? y)%Z with true by (symmetry; apply Z.ltb_lt; exact Hy).
  replace (Qgtb (monthlyRate values) 0) with true
    by (symmetry; apply Qgtb_true; exact Hr).
  cbn [andb].
  replace (0 <? Z.max 0 (numPayments values - y * 12))%Z with false;
    [reflexivity|].
  symmetry. apply Z.ltb_ge. lia.
Qed.

(** Without a positive rate the balance of [src/App.jsx] is never
    touched: it is the loan amount in every year. *)
Lemma App_balance_stuck (y : Z) :
  monthlyRate values <= 0 ->
  App.balance_at values y = Fin (loanAmount values).
Proof.
  intros Hr. unfold App.balance_at, App.balance_update.
  replace (Qgtb (monthlyRate values) 0) with false
    by (symmetry; apply Qgtb_false; exact Hr).
  now rewrite andb_false_r.
Qed.

(** [unnamed/part_002] reports a zero balance from the end of the term
    on, whatever the rate, and a linear one under a zero rate. *)
Lemma Part002_balance_paid_off (y : Z) :
  (0 < y)%Z -> (numPayments values <= y * 12)%Z ->
  Part002.balance_at values y = Fin 0.
Proof.
  intros Hy Hn. unfold Part002.balance_at, Part002.balance_update.
  replace (0 <? y)%Z with true by (symmetry; apply Z.ltb_lt; exact Hy).
  replace (numPayments values <=? y * 12)%Z with true; [reflexivity|].
  symmetry. apply Z.leb_le. exact Hn.
Qed.

Lemma Part002_balance_linear (y : Z) :
  monthlyRate values <= 0 -> (0 < y)%Z ->
  (y * 12 < numPayments values)%Z ->
  Part002.balance_at values y
  = Fin (loanAmount values
         * (1 - inject_Z (y * 12) / inject_Z (numPayments values))).
Proof.
  intros Hr Hy Hn. unfold Part002.balance_at, Part002.balance_update.
  replace (0 <? y)%Z with true by (symmetry; apply Z.ltb_lt; exact Hy).
  replace (numPayments values <=? y * 12)%Z with false
    by (symmetry; apply Z.leb_gt; exact Hn).
  replace (Qgtb (monthlyRate values) 0) with false
    by (symmetry; apply Qgtb_false; exact Hr).
  rewrite ndiv_finite; [reflexivity|].
  change 0 with (inject_Z 0). rewrite inject_Z_injective. lia.
Qed.

(** The same three facts about the variable the loops carry: the balance
    left by the pass of year [y]. *)
Lemma App_loop_balance_paid_off (y : Z) :
  0 < monthlyRate values ->
  (0 < mortgageTerm values <= y)%Z -> (y <= timeHorizon values)%Z ->
  Loop.remainingLoanBalance (App.state_at values (S (Z.to_nat y))) = Fin 0.
Proof.
  intros Hr Ht Hy. rewrite App_state_at_balance by lia.
  replace (Z.of_nat (S (Z.to_nat y)) - 1)%Z with y by lia.
  apply App_balance_paid_off; [exact Hr | lia | unfold numPayments; lia].
Qed.

Lemma App_loop_balance_stuck (k : nat) :
  monthlyRate values <= 0 ->
  (Z.of_nat k <= timeHorizon values + 1)%Z ->
  Loop.remainingLoanBalance (App.state_at values k)
  = Fin (loanAmount values).
Proof.
  intros Hr Hk. rewrite App_state_at_balance by lia.
  apply App_balance_stuck, Hr.
Qed.

Lemma Part002_loop_balance_paid_off (y : Z) :
  (0 < mortgageTerm values <= y)%Z -> (y <= timeHorizon values)%Z ->
  Loop.remainingLoanBalance (Part002.state_at values (S (Z.to_nat y)))
  = Fin 0.
Proof.
  intros Ht Hy. rewrite Part002_state_at_balance by lia.
  replace (Z.of_nat (S (Z.to_nat y)) - 1)%Z with y by lia.
  apply Part002_balance_paid_off; [lia | unfold numPayments; lia].
Qed.

End Balance.

(** C3 on [src/App.jsx], at [interest_free_loan]: the twelve payments of
    100000 / 12 have all been made by year 1, yet the balance the loop
    carries after the passes of years 1 and 2 is still the full 100000 and
    the buy side stays at the down payment; the balance of section 4.1 is
    0 there, and so is that of [unnamed/part_002]. *)
Theorem interest_free_loan_never_paid_down :
  monthlyMortgage interest_free_loan = Fin (100000 / 12)
  /\ Loop.remainingLoanBalance (App.state_at interest_free_loan 2)
     = Fin 100000
  /\ Loop.remainingLoanBalance (App.state_at interest_free_loan 3)
     = Fin 100000
  /\ buyNetWorth (App.project interest_free_loan)
     = [Fin 20000; Fin 20000; Fin 20000]
  /\ Spec.remainingBalance interest_free_loan 1 = Fin 0
  /\ Loop.remainingLoanBalance (Part002.state_at interest_free_loan 2)
     = Fin 0
  /\ buyNetWorth (Part002.project interest_free_loan)
     = [Fin 20000; Fin 120000; Fin 120000].
Proof. vm_compute. repeat split. Qed.

(* ================================================================= *)
(** ** Shape of the result *)

Lemma years_array_nth (values : Inputs) (i : nat) :
  (i < Z.to_nat (timeHorizon values + 1))%nat ->
  nth_error (years_array values) i = Some (Z.of_nat i).
Proof.
  intros Hi. unfold years_array.
  rewrite nth_error_map, nth_error_seq.
  replace (i <? Z.to_nat (timeHorizon values + 1))%nat with true
    by (symmetry; apply Nat.ltb_lt; exact Hi).
  reflexivity.
Qed.

Lemma years_array_length (values : Inputs) :
  length (years_array values) = Z.to_nat (timeHorizon values + 1).
Proof. unfold years_array. now rewrite length_map, length_seq. Qed.

(** The loop of [src/App.jsx] ends because its guard fails, after
    [timeHorizon + 1] passes; fuel beyond that changes nothing. *)
Lemma App_loop_terminates (values : Inputs) (extra : nat) :
  (timeHorizon values < Loop.year (App.final_state values))%Z
  /\ for_loop values (App.body values)
       (Z.to_nat (timeHorizon values + 1) + extra) (loop_init values)
     = App.final_state values.
Proof.
  split.
  - apply for_loop_exit; [exact (App_body_year values) | reflexivity].
  - apply for_loop_fuel; [exact (App_body_year values) | reflexivity].
Qed.

(** C4: for a non-negative integer [timeHorizon] (a positive one in
    particular) the two series and the list of years have exactly
    [timeHorizon + 1] entries each, the year at index [i] is [i] for
    [i = 0 .. timeHorizon], and the years are strictly increasing. *)
Theorem series_has_one_entry_per_year (values : Inputs) :
  (0 <= timeHorizon values)%Z ->
  let r := App.project values in
  Z.of_nat (length (buyNetWorth r)) = (timeHorizon values + 1)%Z
  /\ Z.of_nat (length (rentNetWorth r)) = (timeHorizon values + 1)%Z
  /\ Z.of_nat (length (years r)) = (timeHorizon values + 1)%Z
  /\ (forall i : Z, (0 <= i <= timeHorizon values)%Z ->
        nth_error (years r) (Z.to_nat i) = Some i)
  /\ (forall (i j : nat) (a b : Z),
        (i < j)%nat ->
        nth_error (years r) i = Some a ->
        nth_error (years r) j = Some b ->
        (a < b)%Z).
Proof.
  intros HH r. subst r.
  rewrite App_buyNetWorth_length, App_rentNetWorth_length.
  unfold App.project, summarise. cbn [years].
  rewrite years_array_length.
  repeat split; try lia.
  - intros i Hi. rewrite years_array_nth by lia. now rewrite Z2Nat.id by lia.
  - intros i j a b Hij Ha Hb.
    assert (Hj : (j < length (years_array values))%nat)
      by (apply nth_error_Some; congruence).
    rewrite years_array_length in Hj.
    rewrite years_array_nth in Ha, Hb by lia.
    injection Ha as <-. injection Hb as <-. lia.
Qed.

Lemma series_has_one_entry_per_year_witness :
  (0 <= timeHorizon one_year_loan)%Z /\
  (0 <= 2 <= timeHorizon one_year_loan)%Z /\
  Z.of_nat (length (buyNetWorth (App.project one_year_loan)))
  = (timeHorizon one_year_loan + 1)%Z /\
  Z.of_nat (length (rentNetWorth (App.project one_year_loan)))
  = (timeHorizon one_year_loan + 1)%Z /\
  Z.of_nat (length (years (App.project one_year_loan)))
  = (timeHorizon one_year_loan + 1)%Z /\
  nth_error (years (App.project one_year_loan)) (Z.to_nat 2) = Some 2%Z.
Proof.
  assert (HH : (0 <= timeHorizon one_year_loan)%Z) by (simpl; lia).
  assert (Hi : (0 <= 2 <= timeHorizon one_year_loan)%Z) by (simpl; lia).
  destruct (series_has_one_entry_per_year one_year_loan HH)
    as (A & B & C & D & _).
  split; [exact HH|]. split; [exact Hi|]. split; [exact A|].
  split; [exact B|]. split; [exact C | exact (D 2%Z Hi)].
Defined.

(* ================================================================= *)
(** ** The buy side is never negative *)



(* ================================================================= *)
(** ** The monthly payment and a zero-length term *)

(** The reference scenario: 400000 at 6.5 % over 30 years costs 2528 a
    month. *)
Example default_monthly_payment :
  nround (monthlyMortgage DEFAULT_VALUES) = Fin 2528.
Proof. vm_compute. reflexivity. Qed.









(* ================================================================= *)
(** ** A horizon of zero years *)

Example no_horizon_series :
  years (App.project no_horizon) = [0%Z]
  /\ buyNetWorth (App.project no_horizon) = [Fin 55000]
  /\ rentNetWorth (App.project no_horizon) = [Fin 115000].
Proof. vm_compute. repeat split. Qed.

(** C7, as stated, fails: with [timeHorizon = 0] year 0 is also the final
    year, so the selling cost is taken off next to the closing cost.  For
    [no_horizon] the entry is 500000 - 400000 - 30000 - 15000 = 55000 and
    not 500000 - 400000 - 15000 = 85000. *)
Lemma year0_only_closing_cost_fails :
  ~ (forall values : Inputs,
        timeHorizon values = 0%Z ->
        buyNetWorth (App.project values)
        = [nround (nmax (Fin 0)
                     (Fin (homePrice values - loanAmount values
                           - closingCost values)))]).
Proof.
  intros Hall. specialize (Hall no_horizon eq_refl).
  vm_compute in Hall. discriminate Hall.
Qed.

(** C7 (amended): with [timeHorizon = 0] the result has exactly one entry,
    for year 0.  Its buy side is [max(0, homePrice - loanAmount
    - homePrice * sellingCostsPercent / 100 - closingCost)] rounded: the
    closing cost and the selling cost of the unappreciated price are taken
    off, nothing else.  Its rent side is [downPayment + closingCost]
    rounded, with no reinvested savings. *)
Theorem zero_horizon_single_entry (values : Inputs) :
  timeHorizon values = 0%Z ->
  years (App.project values) = [0%Z]
  /\ buyNetWorth (App.project values)
     = [nround (nmax (Fin 0)
                  (Fin (homePrice values - loanAmount values
                        - homePrice values
                          * (sellingCostsPercent values / 100)
                        - closingCost values)))]
  /\ rentNetWorth (App.project values)
     = [nround (Fin (downPayment values + closingCost values))].
Proof.
  intros HH.
  unfold App.project, summarise, App.final_state, years_array.
  cbn [years buyNetWorth rentNetWorth]. rewrite HH.
  change (Z.to_nat (0 + 1)) with 1%nat.
  rewrite App_state_at_S by (rewrite HH; cbn; lia).
  change (App.state_at values 0) with (loop_init values).
  cbn [next_year App.body loop_init Loop.year Loop.buyNetWorth
       Loop.rentNetWorth Loop.remainingLoanBalance Loop.cumulativeSavings
       Loop.currentRent app].
  split; [reflexivity|]. split.
  - f_equal. apply nround_eq. apply nmax_proper; [reflexivity|].
    unfold App.buyNet, App.balance_update, sellingCost, homeValue,
      App.cumulativeOwnershipCosts.
    rewrite HH. cbn [Z.ltb Z.compare andb Z.eqb nsub num_eq Qpower].
    change (inject_Z 0) with 0. ring.
  - f_equal. apply nround_eq.
    unfold App.savings_update, investedInitial.
    cbn [Z.ltb Z.compare nadd num_eq Qpower]. ring.
Qed.

Lemma zero_horizon_single_entry_witness :
  timeHorizon no_horizon = 0%Z /\
  years (App.project no_horizon) = [0%Z] /\
  buyNetWorth (App.project no_horizon)
  = [nround (nmax (Fin 0)
               (Fin (homePrice no_horizon - loanAmount no_horizon
                     - homePrice no_horizon
                       * (sellingCostsPercent no_horizon / 100)
                     - closingCost no_horizon)))] /\
  rentNetWorth (App.project no_horizon)
  = [nround (Fin (downPayment no_horizon + closingCost no_horizon))].
Proof.
  split; [reflexivity|].
  exact (zero_horizon_single_entry no_horizon eq_refl).
Defined.

(* ================================================================= *)
(** ** The verdict *)

(** C8: for a non-negative horizon, [finalBuy] and [finalRent] are the
    entries at index [timeHorizon] of the two series, both exist,
    [difference] is [finalRent - finalBuy], and the winner is the rent
    scenario exactly when [difference > 0] and the buy scenario otherwise;
    a difference of zero gives the buy scenario. *)
Theorem winner_is_rent_iff_difference_positive (values : Inputs) :
  (0 <= timeHorizon values)%Z ->
  let r := App.project values in
  finalBuy r = nth_error (buyNetWorth r) (Z.to_nat (timeHorizon values))
  /\ finalRent r = nth_error (rentNetWorth r) (Z.to_nat (timeHorizon values))
  /\ (exists fb fr : num,
         finalBuy r = Some fb /\ finalRent r = Some fr
         /\ difference r = (fr - fb)%num)
  /\ (winner r = RentAndInvest <-> ngt (difference r) (Fin 0) = true)
  /\ (winner r = Buy <-> ngt (difference r) (Fin 0) = false)
  /\ (num_eq (difference r) (Fin 0) -> winner r = Buy).
Proof.
  intros HH r.
  assert (Hget : forall xs : list num,
             array_get xs (timeHorizon values)
             = nth_error xs (Z.to_nat (timeHorizon values))).
  { intros xs. unfold array_get.
    replace (timeHorizon values <? 0)%Z with false; [reflexivity|].
    symmetry. apply Z.ltb_ge. exact HH. }
  assert (Hb : finalBuy r
               = nth_error (buyNetWorth r) (Z.to_nat (timeHorizon values)))
    by (unfold r, App.project, summarise; cbn [finalBuy buyNetWorth];
        apply Hget).
  assert (Hr : finalRent r
               = nth_error (rentNetWorth r) (Z.to_nat (timeHorizon values)))
    by (unfold r, App.project, summarise; cbn [finalRent rentNetWorth];
        apply Hget).
  split; [exact Hb|]. split; [exact Hr|].
  assert (Hw : winner r
               = if ngt (difference r) (Fin 0) then RentAndInvest else Buy)
    by reflexivity.
  split; [|split; [|split]].
  - destruct (nth_error (buyNetWorth r) (Z.to_nat (timeHorizon values)))
      as [fb|] eqn:Eb.
    2:{ apply nth_error_None in Eb. unfold r in Eb.
        rewrite App_buyNetWorth_length in Eb. lia. }
    destruct (nth_error (rentNetWorth r) (Z.to_nat (timeHorizon values)))
      as [fr|] eqn:Er.
    2:{ apply nth_error_None in Er. unfold r in Er.
        rewrite App_rentNetWorth_length in Er. lia. }
    exists fb, fr. split; [exact Hb|]. split; [exact Hr|].
    change (difference r)
      with (to_number (finalRent r) - to_number (finalBuy r))%num.
    now rewrite Hb, Hr.
  - rewrite Hw. destruct (ngt (difference r) (Fin 0));
      split; congruence.
  - rewrite Hw. destruct (ngt (difference r) (Fin 0));
      split; congruence.
  - intros Hz. rewrite Hw.
    destruct (difference r) as [d| | |]; cbn [num_eq] in Hz;
      try contradiction.
    unfold ngt, ncompare.
    apply Qeq_alt in Hz. now rewrite Hz.
Qed.

Example break_even_verdict :
  finalBuy (App.project break_even) = Some (Fin 100000)
  /\ finalRent (App.project break_even) = Some (Fin 100000)
  /\ winner (App.project break_even) = Buy.
Proof. vm_compute. repeat split. Qed.

Lemma winner_is_rent_iff_difference_positive_witness :
  (0 <= timeHorizon break_even)%Z /\
  num_eq (difference (App.project break_even)) (Fin 0) /\
  finalBuy (App.project break_even)
  = nth_error (buyNetWorth (App.project break_even))
      (Z.to_nat (timeHorizon break_even)) /\
  (winner (App.project break_even) = RentAndInvest
   <-> ngt (difference (App.project break_even)) (Fin 0) = true) /\
  winner (App.project break_even) = Buy.
Proof.
  assert (HH : (0 <= timeHorizon break_even)%Z) by (simpl; lia).
  assert (Hz : num_eq (difference (App.project break_even)) (Fin 0))
    by (vm_compute; reflexivity).
  destruct (winner_is_rent_iff_difference_positive break_even HH)
    as (A & _ & _ & B & _ & C).
  split; [exact HH|]. split; [exact Hz|]. split; [exact A|].
  split; [exact B | exact (C Hz)].
Defined.

(* ================================================================= *)
(** ** The rent side is never negative *)

Section RentNonneg.

Variable values : Inputs.

Hypothesis downPayment_nonneg : 0 <= downPayment values.
Hypothesis closingCostsPercent_nonneg : 0 <= closingCostsPercent values.
Hypothesis homePrice_nonneg : 0 <= homePrice values.
Hypothesis investmentReturn_nonneg : 0 <= investmentReturn values.
Hypothesis payment_is_a_number :
  mortgageTerm values <> 0%Z \/ downPayment values < homePrice values.







End RentNonneg.




(* ================================================================= *)
(** ** Rent escalation *)

Section RentEscalation.

Variable values : Inputs.

Let m := 1 + rentIncrease values / 100.

(** The pass of a year before the final one multiplies the rent by
    [1 + rentIncrease / 100]; the pass of year 0 does so too. *)
Lemma App_rent_step (k : nat) :
  (Z.of_nat k < timeHorizon values)%Z ->
  Loop.currentRent (App.state_at values (S k))
  = Loop.currentRent (App.state_at values k) * m.
Proof.
  intros Hk. rewrite App_state_at_S by lia.
  cbn [next_year App.body Loop.currentRent].
  rewrite App_state_at_year by lia.
  unfold App.rent_update.
  replace (Z.of_nat k <? timeHorizon values)%Z with true; [reflexivity|].
  symmetry. apply Z.ltb_lt. exact Hk.
Qed.

Lemma App_rent_closed_form (k : nat) :
  (Z.of_nat k <= timeHorizon values)%Z ->
  Loop.currentRent (App.state_at values k)
  == initialRent values * m ^ Z.of_nat k.
Proof.
  induction k as [|k IH]; intros Hk.
  - change (App.state_at values 0) with (loop_init values).
    cbn [loop_init Loop.currentRent Z.of_nat Qpower]. ring.
  - rewrite App_rent_step, IH by lia.
    replace (Z.of_nat (S k)) with (Z.of_nat k + 1)%Z by lia.
    rewrite Qpower_plus' by lia.
    rewrite Qpower_1_r. ring.
Qed.

Lemma App_yearlySavings_eq (r1 r2 : Q) :
  r1 == r2 ->
  num_eq (App.yearlySavings values r1) (App.yearlySavings values r2).
Proof.
  intros E. unfold App.yearlySavings.
  apply nmax_proper; [reflexivity|].
  apply nsub_proper; [reflexivity|].
  cbn [num_eq]. now rewrite E.
Qed.

End RentEscalation.

(** With a rent of 1500 rising by 3 % a year, the savings of year 1 are
    computed from 1545 in [src/App.jsx] and from 1500 in
    [unnamed/part_002]. *)
Example one_year_loan_rent_in_year_1 :
  Loop.currentRent (App.state_at one_year_loan 1) == 1545
  /\ Loop.currentRent (Part002.state_at one_year_loan 1) == 1500.
Proof. vm_compute. split; reflexivity. Qed.

(** C10: in [src/App.jsx] every pass of a year [j < timeHorizon], the
    pass of year 0 included, ends by multiplying the rent by
    [1 + rentIncrease/100].  So the rent on entry to the pass of year [y],
    for [1 <= y <= timeHorizon], is
    [initialRent * (1 + rentIncrease/100)^y], already escalated once in
    the first year of savings, and the savings added in year [y] are
    computed from that rent. *)
Theorem savings_use_rent_escalated_y_times (values : Inputs) (y : Z) :
  (1 <= y <= timeHorizon values)%Z ->
  let s := App.state_at values (Z.to_nat y) in
  let rent_y := initialRent values * (1 + rentIncrease values / 100) ^ y in
  (forall j : Z,
      (0 <= j < timeHorizon values)%Z ->
      Loop.currentRent (App.state_at values (S (Z.to_nat j)))
      = Loop.currentRent (App.state_at values (Z.to_nat j))
        * (1 + rentIncrease values / 100))
  /\ Loop.currentRent (App.state_at values 1)
     = initialRent values * (1 + rentIncrease values / 100)
  /\ Loop.year s = y
  /\ Loop.currentRent s == rent_y
  /\ num_eq
       (Loop.cumulativeSavings (App.state_at values (S (Z.to_nat y))))
       ((Loop.cumulativeSavings s
         + nmax (Fin 0)
             (totalMonthlyOwnership values * Fin 12 - Fin (rent_y * 12)))
        * Fin (1 + investmentReturn values / 100))%num.
Proof.
  intros Hy s rent_y.
  assert (Hrent : Loop.currentRent s == rent_y).
  { unfold s, rent_y. rewrite App_rent_closed_form by lia.
    now rewrite Z2Nat.id by lia. }
  split; [|split; [|split; [|split; [exact Hrent|]]]].
  - intros j Hj. apply App_rent_step. lia.
  - rewrite App_rent_step by (cbn; lia). reflexivity.
  - unfold s. rewrite App_state_at_year by lia. lia.
  - rewrite App_savings_step by lia. fold s.
    apply nmul_proper; [|reflexivity].
    apply nadd_proper; [reflexivity|].
    exact (App_yearlySavings_eq values _ _ Hrent).
Qed.

Lemma savings_use_rent_escalated_y_times_witness :
  (1 <= 2 <= timeHorizon one_year_loan)%Z /\
  (0 <= 0 < timeHorizon one_year_loan)%Z /\
  Loop.currentRent (App.state_at one_year_loan (S (Z.to_nat 0)))
  = Loop.currentRent (App.state_at one_year_loan (Z.to_nat 0))
    * (1 + rentIncrease one_year_loan / 100) /\
  Loop.year (App.state_at one_year_loan (Z.to_nat 2)) = 2%Z /\
  Loop.currentRent (App.state_at one_year_loan (Z.to_nat 2))
  == initialRent one_year_loan
     * (1 + rentIncrease one_year_loan / 100) ^ 2.
Proof.
  assert (Hy : (1 <= 2 <= timeHorizon one_year_loan)%Z) by (simpl; lia).
  assert (Hj : (0 <= 0 < timeHorizon one_year_loan)%Z) by (simpl; lia).
  destruct (savings_use_rent_escalated_y_times one_year_loan 2 Hy)
    as (A & _ & B & C & _).
  split; [exact Hy|]. split; [exact Hj|]. split; [exact (A 0%Z Hj)|].
  split; [exact B | exact C].
Defined.

(* ================================================================= *)
(** ** The balance formula and the monthly payment *)

Section Schedule.

Variable r : Q.
Hypothesis r_pos : 0 < r.

Lemma Qpower_succ_nat (q : Q) (m : nat) :
  q ^ Z.of_nat (S m) == q ^ Z.of_nat m * q.
Proof.
  replace (Z.of_nat (S m)) with (Z.of_nat m + 1)%Z by lia.
  rewrite Qpower_plus' by lia. now rewrite Qpower_1_r.
Qed.

(** After [m] payments the schedule stands at the compounded loan less the
    compounded payments. *)
Lemma pay_months_closed (payment L : Q) (m : nat) :
  pay_months r payment m L
  == L * (1 + r) ^ Z.of_nat m
     - payment * ((1 + r) ^ Z.of_nat m - 1) / r.
Proof.
  induction m as [|m IH].
  - cbn [pay_months Z.of_nat Qpower]. field. lra.
  - cbn [pay_months]. rewrite IH, Qpower_succ_nat. field. lra.
Qed.

(** With the payment of the amortisation formula the schedule is the
    balance formula. *)
Lemma pay_months_amortised (L : Q) (n : Z) (m : nat) :
  (0 < n)%Z ->
  pay_months r (L * r * (1 + r) ^ n / ((1 + r) ^ n - 1)) m L
  == L * ((1 + r) ^ n - (1 + r) ^ Z.of_nat m) / ((1 + r) ^ n - 1).
Proof.
  intros Hn. rewrite pay_months_closed.
  assert (HA : 1 < (1 + r) ^ n) by (apply Qpower_1_lt; [lra | exact Hn]).
  field. split; lra.
Qed.

End Schedule.


(** X1: in [src/App.jsx], under a positive rate and a positive term, the
    balance of every year up to the end of the term is what the
    month-by-month schedule leaves after [12 * y] payments of
    [monthlyMortgage]: the balance formula and the payment formula fit
    together, and the last payment brings the balance to exactly 0. *)
Theorem App_balance_is_schedule (values : Inputs) (y : Z) :
  0 < monthlyRate values ->
  (0 < mortgageTerm values)%Z ->
  (0 <= y <= mortgageTerm values)%Z ->
  exists payment balance : Q,
    monthlyMortgage values = Fin payment
    /\ App.balance_at values y = Fin balance
    /\ balance
       == pay_months (monthlyRate values) payment (Z.to_nat (y * 12))
            (loanAmount values)
    /\ (y = mortgageTerm values -> balance == 0).
Proof.
  intros Hr Ht Hy.
  assert (Hn : (0 < numPayments values)%Z) by (unfold numPayments; lia).
  pose proof (amortisation_denominator values _ Hr Hn) as Hden.
  exists (loanAmount values * monthlyRate values
          * (1 + monthlyRate values) ^ numPayments values
          / ((1 + monthlyRate values) ^ numPayments values - 1)).
  assert (Hpay : monthlyMortgage values
                 = Fin (loanAmount values * monthlyRate values
                        * (1 + monthlyRate values) ^ numPayments values
                        / ((1 + monthlyRate values) ^ numPayments values
                           - 1))).
  { unfold monthlyMortgage.
    replace (Qgtb (monthlyRate values) 0) with true
      by (symmetry; apply Qgtb_true; exact Hr).
    now apply ndiv_finite. }
  destruct (Z.eq_dec y 0) as [-> | Hy0].
  - exists (loanAmount values). split; [exact Hpay|].
    split; [reflexivity|]. split; [reflexivity | lia].
  - destruct (Z.eq_dec y (mortgageTerm values)) as [E | Hlt].
    + exists 0. split; [exact Hpay|]. split.
      * apply App_balance_paid_off; [exact Hr | lia |].
        unfold numPayments. lia.
      * split; [|reflexivity].
        rewrite pay_months_amortised by assumption.
        replace (Z.of_nat (Z.to_nat (y * 12))) with (numPayments values)
          by (unfold numPayments; lia).
        field. exact Hden.
    + exists (loanAmount values
              * ((1 + monthlyRate values) ^ numPayments values
                 - (1 + monthlyRate values) ^ (y * 12))
              / ((1 + monthlyRate values) ^ numPayments values - 1)).
      split; [exact Hpay|]. split.
      * unfold App.balance_at, App.balance_update.
        replace (0 <? y)%Z with true by (symmetry; apply Z.ltb_lt; lia).
        replace (Qgtb (monthlyRate values) 0) with true
          by (symmetry; apply Qgtb_true; exact Hr).
        cbn [andb].
        replace (0 <? Z.max 0 (numPayments values - y * 12))%Z with true
          by (symmetry; apply Z.ltb_lt; unfold numPayments; lia).
        now apply ndiv_finite.
      * split; [|intros E; contradiction].
        rewrite pay_months_amortised by assumption.
        now rewrite Z2Nat.id by lia.
Qed.

Lemma App_balance_is_schedule_witness :
  0 < monthlyRate two_year_loan /\
  (0 < mortgageTerm two_year_loan)%Z /\
  (0 <= 2 <= mortgageTerm two_year_loan)%Z /\
  2%Z = mortgageTerm two_year_loan /\
  exists payment balance : Q,
    monthlyMortgage two_year_loan = Fin payment
    /\ App.balance_at two_year_loan 2 = Fin balance
    /\ balance
       == pay_months (monthlyRate two_year_loan) payment
            (Z.to_nat (2 * 12)) (loanAmount two_year_loan)
    /\ balance == 0.
Proof.
  assert (Hr : 0 < monthlyRate two_year_loan) by reflexivity.
  assert (Ht : (0 < mortgageTerm two_year_loan)%Z) by reflexivity.
  assert (Hy : (0 <= 2 <= mortgageTerm two_year_loan)%Z) by (simpl; lia).
  assert (He : 2%Z = mortgageTerm two_year_loan) by reflexivity.
  split; [exact Hr|]. split; [exact Ht|]. split; [exact Hy|].
  split; [exact He|].
  destruct (App_balance_is_schedule two_year_loan 2 Hr Ht Hy)
    as (payment & balance & A & B & C & D).
  exists payment, balance.
  split; [exact A|]. split; [exact B|]. split; [exact C | exact (D He)].
Defined.

(* ================================================================= *)
(** ** The balance never grows *)

Section BalanceRange.

Variable values : Inputs.

Let L := loanAmount values.
Let r := monthlyRate values.
Let n := numPayments values.







End BalanceRange.







(* ================================================================= *)
(** ** What each series depends on *)

(** X5: the buy series of [src/App.jsx] is a function of the nine inputs
    of the purchase alone: two inputs that differ at most in the rent, the
    rent increase and the investment return give the same buy series. *)
Theorem buy_series_ignores_rent_inputs (v1 v2 : Inputs) :
  homePrice v1 = homePrice v2 ->
  downPayment v1 = downPayment v2 ->
  mortgageRate v1 = mortgageRate v2 ->
  mortgageTerm v1 = mortgageTerm v2 ->
  homeAppreciation v1 = homeAppreciation v2 ->
  timeHorizon v1 = timeHorizon v2 ->
  closingCostsPercent v1 = closingCostsPercent v2 ->
  sellingCostsPercent v1 = sellingCostsPercent v2 ->
  annualOwnershipPercent v1 = annualOwnershipPercent v2 ->
  buyNetWorth (App.project v1) = buyNetWorth (App.project v2).
Proof.
  intros E1 E2 E3 E4 E5 E6 E7 E8 E9.
  rewrite !App_buyNetWorth_series, E6.
  apply map_ext. intros i.
  unfold App.buy_entry, App.buyNet, App.balance_at, App.balance_update,
    App.cumulativeOwnershipCosts, sellingCost, homeValue, closingCost,
    monthlyOwnershipExtra, loanAmount, monthlyRate, numPayments.
  now rewrite E1, E2, E3, E4, E5, E6, E7, E8, E9.
Qed.

Lemma buy_series_ignores_rent_inputs_witness :
  initialRent two_year_loan <> initialRent two_year_loan_high_rent /\
  buyNetWorth (App.project two_year_loan)
  = buyNetWorth (App.project two_year_loan_high_rent).
Proof.
  split; [vm_compute; discriminate|].
  apply (buy_series_ignores_rent_inputs two_year_loan
           two_year_loan_high_rent); reflexivity.
Defined.

Section RentIgnoresSale.

Variables v1 v2 : Inputs.

Hypothesis same_homePrice : homePrice v1 = homePrice v2.
Hypothesis same_downPayment : downPayment v1 = downPayment v2.
Hypothesis same_mortgageRate : mortgageRate v1 = mortgageRate v2.
Hypothesis same_mortgageTerm : mortgageTerm v1 = mortgageTerm v2.
Hypothesis same_initialRent : initialRent v1 = initialRent v2.
Hypothesis same_rentIncrease : rentIncrease v1 = rentIncrease v2.
Hypothesis same_investmentReturn : investmentReturn v1 = investmentReturn v2.
Hypothesis same_timeHorizon : timeHorizon v1 = timeHorizon v2.
Hypothesis same_closingCostsPercent :
  closingCostsPercent v1 = closingCostsPercent v2.
Hypothesis same_annualOwnershipPercent :
  annualOwnershipPercent v1 = annualOwnershipPercent v2.

Lemma totalMonthlyOwnership_same :
  totalMonthlyOwnership v1 = totalMonthlyOwnership v2.
Proof.
  unfold totalMonthlyOwnership, monthlyMortgage, monthlyOwnershipExtra,
    loanAmount, monthlyRate, numPayments.
  now rewrite same_homePrice, same_downPayment, same_mortgageRate,
    same_mortgageTerm, same_annualOwnershipPercent.
Qed.

Lemma App_body_same_rent_side (s1 s2 : Loop.State) :
  same_rent_side s1 s2 ->
  same_rent_side (next_year (App.body v1 s1)) (next_year (App.body v2 s2)).
Proof.
  intros (Ey & Er & Ec & El).
  unfold same_rent_side.
  cbn [next_year App.body Loop.year Loop.currentRent Loop.cumulativeSavings
       Loop.rentNetWorth].
  assert (Hs : App.savings_update v1 (Loop.year s1) (Loop.currentRent s1)
                 (Loop.cumulativeSavings s1)
               = App.savings_update v2 (Loop.year s2) (Loop.currentRent s2)
                   (Loop.cumulativeSavings s2)).
  { unfold App.savings_update, App.yearlySavings.
    now rewrite Ey, Er, Ec, totalMonthlyOwnership_same,
      same_investmentReturn. }
  split; [now rewrite Ey|]. split; [|split; [exact Hs|]].
  - unfold App.rent_update.
    now rewrite Ey, Er, same_timeHorizon, same_rentIncrease.
  - rewrite Hs, El, Ey. unfold investedInitial, closingCost.
    now rewrite same_downPayment, same_homePrice, same_closingCostsPercent,
      same_investmentReturn.
Qed.

Lemma App_loop_same_rent_side (k : nat) (s1 s2 : Loop.State) :
  same_rent_side s1 s2 ->
  same_rent_side (for_loop v1 (App.body v1) k s1)
                 (for_loop v2 (App.body v2) k s2).
Proof.
  revert s1 s2. induction k as [|k IH]; intros s1 s2 Hs; [exact Hs|].
  cbn [for_loop].
  replace (Loop.year s2) with (Loop.year s1) by apply Hs.
  rewrite same_timeHorizon.
  destruct (Loop.year s1 <=? timeHorizon v2)%Z; [|exact Hs].
  apply IH, App_body_same_rent_side, Hs.
Qed.

Lemma App_rent_series_same :
  rentNetWorth (App.project v1) = rentNetWorth (App.project v2).
Proof.
  unfold App.project, summarise, App.final_state, App.state_at.
  cbn [rentNetWorth]. rewrite same_timeHorizon.
  apply App_loop_same_rent_side.
  unfold same_rent_side, loop_init.
  cbn [Loop.year Loop.currentRent Loop.cumulativeSavings Loop.rentNetWorth].
  now rewrite same_initialRent.
Qed.

End RentIgnoresSale.

(** X6: the rent series of [src/App.jsx] does not depend on the home
    appreciation or on the selling cost: two inputs that agree on the ten
    other fields give the same rent series. *)
Theorem rent_series_ignores_sale_inputs (v1 v2 : Inputs) :
  homePrice v1 = homePrice v2 ->
  downPayment v1 = downPayment v2 ->
  mortgageRate v1 = mortgageRate v2 ->
  mortgageTerm v1 = mortgageTerm v2 ->
  initialRent v1 = initialRent v2 ->
  rentIncrease v1 = rentIncrease v2 ->
  investmentReturn v1 = investmentReturn v2 ->
  timeHorizon v1 = timeHorizon v2 ->
  closingCostsPercent v1 = closingCostsPercent v2 ->
  annualOwnershipPercent v1 = annualOwnershipPercent v2 ->
  rentNetWorth (App.project v1) = rentNetWorth (App.project v2).
Proof. intros. now apply App_rent_series_same. Qed.

Lemma rent_series_ignores_sale_inputs_witness :
  homeAppreciation two_year_loan <> homeAppreciation two_year_loan_boom /\
  rentNetWorth (App.project two_year_loan)
  = rentNetWorth (App.project two_year_loan_boom).
Proof.
  split; [vm_compute; discriminate|].
  apply (rent_series_ignores_sale_inputs two_year_loan two_year_loan_boom);
    reflexivity.
Defined.

(* ================================================================= *)
(** ** The rent series of [src/App.jsx], entry by entry *)

Lemma App_state_at_rentNetWorth (values : Inputs) (k : nat) :
  (Z.of_nat k <= timeHorizon values + 1)%Z ->
  Loop.rentNetWorth (App.state_at values k)
  = map (fun i =>
           nround (Fin (investedInitial values (Z.of_nat i))
                   + Loop.cumulativeSavings (App.state_at values (S i)))%num)
        (seq 0 k).
Proof.
  induction k as [|k IH]; intros Hk.
  - reflexivity.
  - rewrite seq_S, map_app. cbn [map Nat.add].
    rewrite <- IH by lia.
    rewrite App_state_at_S by lia.
    cbn [next_year App.body Loop.rentNetWorth Loop.cumulativeSavings].
    now rewrite App_state_at_year by lia.
Qed.

Lemma App_rentNetWorth_nth (values : Inputs) (y : Z) :
  (0 <= y <= timeHorizon values)%Z ->
  nth_error (rentNetWorth (App.project values)) (Z.to_nat y)
  = Some (nround
            (Fin (investedInitial values y)
             + Loop.cumulativeSavings
                 (App.state_at values (S (Z.to_nat y))))%num).
Proof.
  intros Hy. unfold App.project, summarise, App.final_state.
  cbn [rentNetWorth].
  rewrite App_state_at_rentNetWorth by lia.
  rewrite nth_error_map, nth_error_seq.
  replace (Z.to_nat y <? Z.to_nat (timeHorizon values + 1))%nat with true
    by (symmetry; apply Nat.ltb_lt; lia).
  cbn [option_map Nat.add]. now rewrite Z2Nat.id by lia.
Qed.

Section NumOrder.





End NumOrder.

Section RentGrowth.

Variable values : Inputs.

Hypothesis downPayment_nonneg : 0 <= downPayment values.
Hypothesis closingCostsPercent_nonneg : 0 <= closingCostsPercent values.
Hypothesis homePrice_nonneg : 0 <= homePrice values.
Hypothesis investmentReturn_nonneg : 0 <= investmentReturn values.
Hypothesis payment_is_a_number :
  mortgageTerm values <> 0%Z \/ downPayment values < homePrice values.






End RentGrowth.



(* ================================================================= *)
(** ** A return of zero *)

Lemma nmul_one (x : num) (g : Q) : g == 1 -> num_eq (x * Fin g)%num x.
Proof.
  intros Hg.
  assert (H0 : 0 < g) by (rewrite Hg; reflexivity).
  assert (Hpos : (g ?= 0) = Gt) by (apply Qgt_alt; exact H0).
  assert (Hneg : (0 ?= g) = Lt) by (apply Qlt_alt; exact H0).
  destruct x as [a| | |]; cbn [nmul num_eq].
  - rewrite Hg. ring.
  - now rewrite Hpos.
  - now rewrite Hneg.
  - exact I.
Qed.

Lemma App_zero_return_sum (values : Inputs) (k : nat) :
  investmentReturn values == 0 ->
  (Z.of_nat k <= timeHorizon values)%Z ->
  num_eq
    (Loop.cumulativeSavings (App.state_at values (S k)))
    (fold_left nadd
       (map (fun j =>
               App.yearlySavings values
                 (Loop.currentRent (App.state_at values j)))
            (seq 1 k))
       (Fin 0)).
Proof.
  intros Hi. induction k as [|k IH]; intros Hk.
  - rewrite App_state_at_S by lia.
    change (App.state_at values 0) with (loop_init values).
    cbn. apply Qeq_refl.
  - rewrite App_savings_step by lia.
    rewrite seq_S, map_app, fold_left_app. cbn [map fold_left Nat.add].
    rewrite nmul_one by (rewrite Hi; reflexivity).
    apply nadd_proper; [apply IH; lia | reflexivity].
Qed.

(** X8: with [investmentReturn = 0] nothing compounds in [src/App.jsx]:
    the reinvested total after the pass of year [y] is the plain sum of
    the yearly savings of years 1 to [y], and the rent entry of year [y]
    is [downPayment + closingCost] plus that sum, rounded. *)
Theorem zero_return_savings_are_a_plain_sum (values : Inputs) (y : Z) :
  investmentReturn values == 0 ->
  (0 <= y <= timeHorizon values)%Z ->
  let savings :=
    fold_left nadd
      (map (fun j =>
              App.yearlySavings values
                (Loop.currentRent (App.state_at values j)))
           (seq 1 (Z.to_nat y)))
      (Fin 0) in
  num_eq (Loop.cumulativeSavings (App.state_at values (S (Z.to_nat y))))
         savings
  /\ nth_error (rentNetWorth (App.project values)) (Z.to_nat y)
     = Some (nround
               (Fin (downPayment values + closingCost values) + savings)%num).
Proof.
  intros Hi Hy savings.
  assert (Hsum : num_eq
                   (Loop.cumulativeSavings
                      (App.state_at values (S (Z.to_nat y))))
                   savings)
    by (apply App_zero_return_sum; [exact Hi | lia]).
  split; [exact Hsum|].
  rewrite App_rentNetWorth_nth by lia. f_equal.
  apply nround_eq, nadd_proper; [|exact Hsum].
  cbn [num_eq]. unfold investedInitial. rewrite Hi.
  setoid_replace (1 + 0 / 100) with 1 by reflexivity.
  rewrite Qpower_1. ring.
Qed.

Lemma zero_return_savings_are_a_plain_sum_witness :
  investmentReturn one_year_loan == 0 /\
  (0 <= 2 <= timeHorizon one_year_loan)%Z /\
  num_eq
    (Loop.cumulativeSavings (App.state_at one_year_loan (S (Z.to_nat 2))))
    (fold_left nadd
       (map (fun j =>
               App.yearlySavings one_year_loan
                 (Loop.currentRent (App.state_at one_year_loan j)))
            (seq 1 (Z.to_nat 2)))
       (Fin 0)).
Proof.
  assert (Hi : investmentReturn one_year_loan == 0) by reflexivity.
  assert (Hy : (0 <= 2 <= timeHorizon one_year_loan)%Z) by (simpl; lia).
  split; [exact Hi|]. split; [exact Hy|].
  exact (proj1 (zero_return_savings_are_a_plain_sum one_year_loan 2 Hi Hy)).
Defined.

(* ================================================================= *)
(** ** The amount on the summary card *)






(* ================================================================= *)
(** ** The series of [unnamed/part_002] *)

Section Part002Series.

Variable values : Inputs.

Let H := timeHorizon values.

Lemma Part002_state_at_buyNetWorth (k : nat) :
  (Z.of_nat k <= H + 1)%Z ->
  Loop.buyNetWorth (Part002.state_at values k)
  = map (fun i => Part002_buy_entry values (Z.of_nat i)) (seq 0 k).
Proof.
  induction k as [|k IH]; intros Hk.
  - reflexivity.
  - rewrite Part002_state_at_S by lia.
    cbn [next_year Part002.body Loop.buyNetWorth].
    rewrite Part002_state_at_year, Part002_state_at_balance, IH by lia.
    rewrite seq_S, map_app. cbn [map Nat.add].
    unfold Part002_buy_entry.
    now rewrite Part002_balance_update_twice by lia.
Qed.

Lemma Part002_state_at_rent_length (k : nat) :
  (Z.of_nat k <= H + 1)%Z ->
  length (Loop.rentNetWorth (Part002.state_at values k)) = k.
Proof.
  induction k as [|k IH]; intros Hk.
  - reflexivity.
  - rewrite Part002_state_at_S by lia.
    cbn [next_year Part002.body Loop.rentNetWorth].
    rewrite length_app, IH by lia. cbn [length]. lia.
Qed.

Lemma Part002_buyNetWorth_series :
  buyNetWorth (Part002.project values)
  = map (fun i => Part002_buy_entry values (Z.of_nat i))
        (seq 0 (Z.to_nat (H + 1))).
Proof.
  unfold Part002.project, summarise, Part002.final_state.
  cbn [buyNetWorth]. unfold H.
  destruct (Z_to_nat_horizon values) as [Hle|E].
  - now apply Part002_state_at_buyNetWorth.
  - rewrite E. reflexivity.
Qed.

Lemma Part002_rentNetWorth_length :
  length (rentNetWorth (Part002.project values)) = Z.to_nat (H + 1).
Proof.
  unfold Part002.project, summarise, Part002.final_state.
  cbn [rentNetWorth]. unfold H.
  destruct (Z_to_nat_horizon values) as [Hle|E].
  - now apply Part002_state_at_rent_length.
  - rewrite E. reflexivity.
Qed.




End Part002Series.

(** X10: in [unnamed/part_002], for a non-negative horizon, both series
    have [timeHorizon + 1] entries and the buy entry of year [y] is
    [max(0, homeValue(y) - remainingLoanBalance(y) - sellingCost(y))]
    rounded: home equity less the selling cost of the final year, with
    neither the closing cost nor the ownership costs taken off. *)
Theorem Part002_buy_entry_is_equity (values : Inputs) (y : Z) :
  (0 <= y <= timeHorizon values)%Z ->
  Z.of_nat (length (buyNetWorth (Part002.project values)))
  = (timeHorizon values + 1)%Z
  /\ Z.of_nat (length (rentNetWorth (Part002.project values)))
     = (timeHorizon values + 1)%Z
  /\ nth_error (buyNetWorth (Part002.project values)) (Z.to_nat y)
     = Some (nround
               (nmax (Fin 0)
                  (Fin (homeValue values y)
                   - Part002.balance_at values y
                   - Fin (sellingCost values y))%num)).
Proof.
  intros Hy.
  rewrite Part002_rentNetWorth_length, Part002_buyNetWorth_series.
  rewrite length_map, length_seq.
  split; [lia|]. split; [lia|].
  rewrite nth_error_map, nth_error_seq.
  replace (Z.to_nat y <? Z.to_nat (timeHorizon values + 1))%nat with true
    by (symmetry; apply Nat.ltb_lt; lia).
  cbn [option_map Nat.add]. now rewrite Z2Nat.id by lia.
Qed.

Lemma Part002_buy_entry_is_equity_witness :
  (0 <= 1 <= timeHorizon two_year_loan)%Z /\
  nth_error (buyNetWorth (Part002.project two_year_loan)) (Z.to_nat 1)
  = Some (nround
            (nmax (Fin 0)
               (Fin (homeValue two_year_loan 1)
                - Part002.balance_at two_year_loan 1
                - Fin (sellingCost two_year_loan 1))%num)).
Proof.
  assert (Hy : (0 <= 1 <= timeHorizon two_year_loan)%Z) by (simpl; lia).
  split; [exact Hy|].
  exact (proj2 (proj2 (Part002_buy_entry_is_equity two_year_loan 1 Hy))).
Defined.


(* ================================================================= *)
(** ** The balance of [unnamed/part_002] *)

Section Part002Balance.

Variable values : Inputs.

Let L := loanAmount values.
Let r := monthlyRate values.
Let n := numPayments values.





End Part002Balance.






(* ================================================================= *)
(** ** Rent escalation in [unnamed/part_002] *)

Section Part002Rent.

Variable values : Inputs.

Let m := 1 + rentIncrease values / 100.

Lemma Part002_rent_step (k : nat) :
  (0 < Z.of_nat k <= timeHorizon values)%Z ->
  Loop.currentRent (Part002.state_at values (S k))
  = Loop.currentRent (Part002.state_at values k) * m.
Proof.
  intros Hk. rewrite Part002_state_at_S by lia.
  cbn [next_year Part002.body Loop.currentRent].
  rewrite Part002_state_at_year by lia.
  unfold Part002.rent_update.
  replace (0 <? Z.of_nat k)%Z with true; [reflexivity|].
  symmetry. apply Z.ltb_lt. lia.
Qed.

Lemma Part002_rent_first_year :
  (0 <= timeHorizon values)%Z ->
  Loop.currentRent (Part002.state_at values 1) = initialRent values.
Proof.
  intros HH. rewrite Part002_state_at_S by (cbn; lia).
  reflexivity.
Qed.

Lemma Part002_rent_closed_form (k : nat) :
  (Z.of_nat k <= timeHorizon values)%Z ->
  Loop.currentRent (Part002.state_at values (S k))
  == initialRent values * m ^ Z.of_nat k.
Proof.
  induction k as [|k IH]; intros Hk.
  - rewrite Part002_rent_first_year by lia.
    cbn [Z.of_nat Qpower]. ring.
  - rewrite Part002_rent_step, IH by lia.
    rewrite Qpower_succ_nat. ring.
Qed.

End Part002Rent.

(** X14: in [unnamed/part_002] the rent is escalated inside the savings
    block, after the savings of the year are taken.  So the rent on entry
    to the pass of year [y], for [1 <= y <= timeHorizon], is
    [initialRent * (1 + rentIncrease/100)^(y-1)]: the first year of
    savings is charged the initial rent, and the signed savings of year
    [y] are computed from that rent. *)
Theorem Part002_savings_use_rent_escalated_y_minus_1_times
    (values : Inputs) (y : Z) :
  (1 <= y <= timeHorizon values)%Z ->
  let s := Part002.state_at values (Z.to_nat y) in
  let rent_y :=
    initialRent values * (1 + rentIncrease values / 100) ^ (y - 1) in
  Loop.currentRent (Part002.state_at values 1) = initialRent values
  /\ Loop.currentRent s == rent_y
  /\ num_eq
       (Loop.cumulativeSavings (Part002.state_at values (S (Z.to_nat y))))
       ((Loop.cumulativeSavings s
         + (totalMonthlyOwnership values * Fin 12 - Fin (rent_y * 12)))
        * Fin (1 + investmentReturn values / 100))%num.
Proof.
  intros Hy s rent_y.
  assert (Hrent : Loop.currentRent s == rent_y).
  { unfold s, rent_y.
    replace (Z.to_nat y) with (S (Z.to_nat (y - 1))) by lia.
    rewrite Part002_rent_closed_form by lia.
    now rewrite Z2Nat.id by lia. }
  split; [apply Part002_rent_first_year; lia|].
  split; [exact Hrent|].
  rewrite Part002_savings_step by lia. fold s.
  apply nmul_proper; [|reflexivity].
  apply nadd_proper; [reflexivity|].
  unfold Part002.yearlySavings.
  apply nsub_proper; [reflexivity|].
  cbn [num_eq]. now rewrite Hrent.
Qed.

Lemma Part002_savings_use_rent_escalated_y_minus_1_times_witness :
  (1 <= 2 <= timeHorizon two_year_loan)%Z /\
  Loop.currentRent (Part002.state_at two_year_loan 1)
  = initialRent two_year_loan /\
  Loop.currentRent (Part002.state_at two_year_loan (Z.to_nat 2))
  == initialRent two_year_loan
     * (1 + rentIncrease two_year_loan / 100) ^ (2 - 1).
Proof.
  assert (Hy : (1 <= 2 <= timeHorizon two_year_loan)%Z) by (simpl; lia).
  destruct (Part002_savings_use_rent_escalated_y_minus_1_times
              two_year_loan 2 Hy) as (A & B & _).
  split; [exact Hy|]. split; [exact A | exact B].
Defined.

(* ================================================================= *)
(** ** Where the two revisions agree *)

Lemma nsub_zero (x : num) (c : Q) : c == 0 -> num_eq (x - Fin c)%num x.
Proof.
  intros Hc. destruct x as [a| | |]; cbn [nsub num_eq]; try exact I.
  rewrite Hc. ring.
Qed.

Lemma balance_at_agree (values : Inputs) (y : Z) :
  0 < monthlyRate values ->
  App.balance_at values y = Part002.balance_at values y.
Proof.
  intros Hr.
  unfold App.balance_at, App.balance_update,
    Part002.balance_at, Part002.balance_update.
  replace (Qgtb (monthlyRate values) 0) with true
    by (symmetry; apply Qgtb_true; exact Hr).
  rewrite andb_true_r.
  destruct (0 <? y)%Z; [|reflexivity].
  destruct (numPayments values <=? y * 12)%Z eqn:E.
  - apply Z.leb_le in E.
    replace (0 <? Z.max 0 (numPayments values - y * 12))%Z with false;
      [reflexivity|].
    symmetry. apply Z.ltb_ge. lia.
  - apply Z.leb_gt in E.
    replace (0 <? Z.max 0 (numPayments values - y * 12))%Z with true;
      [reflexivity|].
    symmetry. apply Z.ltb_lt. lia.
Qed.

(** X15: under a positive mortgage rate and with [closingCostsPercent]
    and [annualOwnershipPercent] both 0, [src/App.jsx] and
    [unnamed/part_002] produce the same buy series: on the buy side the
    two revisions differ only in the costs they charge and in the payoff
    of an interest-free loan. *)
Theorem buy_series_agree_without_costs (values : Inputs) :
  0 < monthlyRate values ->
  closingCostsPercent values == 0 ->
  annualOwnershipPercent values == 0 ->
  buyNetWorth (App.project values) = buyNetWorth (Part002.project values).
Proof.
  intros Hr Hc Ho.
  rewrite App_buyNetWorth_series, Part002_buyNetWorth_series.
  apply map_ext. intros i.
  unfold App.buy_entry, Part002_buy_entry, App.buyNet, Part002.buyNet.
  rewrite (balance_at_agree values _ Hr).
  apply nround_eq, nmax_proper; [reflexivity|].
  etransitivity; [apply nsub_zero|].
  - unfold App.cumulativeOwnershipCosts, monthlyOwnershipExtra.
    rewrite Ho. field.
  - apply nsub_zero.
    destruct (Z.of_nat i =? 0)%Z; [|reflexivity].
    unfold closingCost. rewrite Hc. field.
Qed.

Lemma buy_series_agree_without_costs_witness :
  0 < monthlyRate two_year_loan_no_costs /\
  closingCostsPercent two_year_loan_no_costs == 0 /\
  annualOwnershipPercent two_year_loan_no_costs == 0 /\
  buyNetWorth (App.project two_year_loan_no_costs)
  = buyNetWorth (Part002.project two_year_loan_no_costs).
Proof.
  assert (Hr : 0 < monthlyRate two_year_loan_no_costs) by reflexivity.
  assert (Hc : closingCostsPercent two_year_loan_no_costs == 0)
    by reflexivity.
  assert (Ho : annualOwnershipPercent two_year_loan_no_costs == 0)
    by reflexivity.
  split; [exact Hr|]. split; [exact Hc|]. split; [exact Ho|].
  exact (buy_series_agree_without_costs two_year_loan_no_costs Hr Hc Ho).
Defined.

(* ================================================================= *)
(** ** The series of [unnamed/part_001] *)

Section Part001Facts.

Variable values : Inputs.

Lemma Part001_body_year (s : Loop.State) :
  Loop.year (Part001.body values s) = Loop.year s.
Proof. reflexivity. Qed.

Lemma Part001_state_at_S (k : nat) :
  (Z.of_nat k <= timeHorizon values)%Z ->
  Part001.state_at values (S k)
  = next_year (Part001.body values (Part001.state_at values k)).
Proof.
  intros Hk. unfold Part001.state_at.
  apply for_loop_snoc; [exact Part001_body_year|].
  cbn [loop_init Loop.year]. lia.
Qed.

Lemma Part001_state_at_year (k : nat) :
  (Z.of_nat k <= timeHorizon values + 1)%Z ->
  Loop.year (Part001.state_at values k) = Z.of_nat k.
Proof.
  intros Hk. unfold Part001.state_at.
  rewrite for_loop_year; [reflexivity | exact Part001_body_year |].
  cbn [loop_init Loop.year]. lia.
Qed.

Lemma Part001_state_at_buyNetWorth (k : nat) :
  (Z.of_nat k <= timeHorizon values + 1)%Z ->
  Loop.buyNetWorth (Part001.state_at values k)
  = map (fun i =>
           nround (nmax (Fin 0)
                     (Fin (Part001.buyNet values (Z.of_nat i)))))
        (seq 0 k).
Proof.
  induction k as [|k IH]; intros Hk.
  - reflexivity.
  - rewrite Part001_state_at_S by lia.
    cbn [next_year Part001.body Loop.buyNetWorth].
    rewrite Part001_state_at_year, IH by lia.
    now rewrite seq_S, map_app.
Qed.

Lemma Part001_state_at_rentNetWorth (k : nat) :
  (Z.of_nat k <= timeHorizon values + 1)%Z ->
  Loop.rentNetWorth (Part001.state_at values k)
  = map (fun i =>
           nround (Fin (Part001.investedDown values (Z.of_nat i))
                   + Loop.cumulativeSavings
                       (Part001.state_at values (S i)))%num)
        (seq 0 k).
Proof.
  induction k as [|k IH]; intros Hk.
  - reflexivity.
  - rewrite seq_S, map_app. cbn [map Nat.add].
    rewrite <- IH by lia.
    rewrite Part001_state_at_S by lia.
    cbn [next_year Part001.body Loop.rentNetWorth Loop.cumulativeSavings].
    now rewrite Part001_state_at_year by lia.
Qed.

Lemma Part001_savings_step (k : nat) :
  (Z.of_nat k <= timeHorizon values)%Z ->
  Loop.cumulativeSavings (Part001.state_at values (S k))
  = ((Loop.cumulativeSavings (Part001.state_at values k)
      + Part001.yearlySavings values
          (Loop.currentRent (Part001.state_at values k)))
     * Fin (1 + investmentReturn values / 100))%num.
Proof.
  intros Hk. rewrite Part001_state_at_S by lia. reflexivity.
Qed.

End Part001Facts.

(** X25: in [unnamed/part_001], for every year [y] from 0 to
    [timeHorizon], the buy entry is [max(0, homeValue(y) - loanAmount
    - sellingCost(y) - closingCost(y) - monthlyOwnershipExtra * 12 * y
    + downPayment)] rounded, the closing cost being charged in the final
    year only: the loan is never paid down, and the down payment is added
    on top of the equity, so that with [0 <= downPayment <= homePrice] and
    a horizon above 0 the entry of year 0 is twice the down payment. *)
Theorem Part001_buy_entry_counts_down_payment_twice
    (values : Inputs) (y : Z) :
  (0 <= y <= timeHorizon values)%Z ->
  nth_error (buyNetWorth (Part001.project values)) (Z.to_nat y)
  = Some (nround
            (nmax (Fin 0)
               (Fin (homeValue values y - loanAmount values
                     - sellingCost values y
                     - (if (y =? timeHorizon values)%Z
                        then homePrice values
                             * (closingCostsPercent values / 100)
                        else 0)
                     - monthlyOwnershipExtra values * 12 * inject_Z y
                     + downPayment values))))
  /\ ((0 < timeHorizon values)%Z ->
      0 <= downPayment values -> downPayment values <= homePrice values ->
      nth_error (buyNetWorth (Part001.project values)) 0
      = Some (nround (Fin (2 * downPayment values)))).
Proof.
  intros Hy.
  assert (Hnth : forall z : Z,
             (0 <= z <= timeHorizon values)%Z ->
             nth_error (buyNetWorth (Part001.project values)) (Z.to_nat z)
             = Some (nround
                       (nmax (Fin 0) (Fin (Part001.buyNet values z))))).
  { intros z Hz. unfold Part001.project, summarise, Part001.final_state.
    cbn [buyNetWorth].
    rewrite Part001_state_at_buyNetWorth by lia.
    rewrite nth_error_map, nth_error_seq.
    replace (Z.to_nat z <? Z.to_nat (timeHorizon values + 1))%nat with true
      by (symmetry; apply Nat.ltb_lt; lia).
    cbn [option_map Nat.add]. now rewrite Z2Nat.id by lia. }
  split; [exact (Hnth y Hy)|].
  intros HH Hd0 Hdp.
  change 0%nat with (Z.to_nat 0). rewrite Hnth by lia.
  f_equal. apply nround_eq. cbn [nmax num_eq].
  unfold Part001.buyNet, Part001.closingCost, Part001.cumulativeExtra,
    sellingCost, homeValue, loanAmount.
  replace (0 =? timeHorizon values)%Z with false
    by (symmetry; apply Z.eqb_neq; lia).
  cbn [Qpower]. change (inject_Z 0) with 0.
  rewrite (Q.max_r 0 (homePrice values - downPayment values)) by lra.
  rewrite Q.max_r; [ring|].
  assert (E : homePrice values * 1 - (homePrice values - downPayment values)
              - 0 - 0 - monthlyOwnershipExtra values * 12 * 0
              + downPayment values == 2 * downPayment values) by ring.
  rewrite E. lra.
Qed.

Lemma Part001_buy_entry_counts_down_payment_twice_witness :
  (0 <= 1 <= timeHorizon two_year_loan)%Z /\
  (0 < timeHorizon two_year_loan)%Z /\
  0 <= downPayment two_year_loan /\
  downPayment two_year_loan <= homePrice two_year_loan /\
  nth_error (buyNetWorth (Part001.project two_year_loan)) 0
  = Some (nround (Fin (2 * downPayment two_year_loan))).
Proof.
  assert (Hy : (0 <= 1 <= timeHorizon two_year_loan)%Z) by (simpl; lia).
  assert (HH : (0 < timeHorizon two_year_loan)%Z) by reflexivity.
  assert (Hd : 0 <= downPayment two_year_loan) by (vm_compute; discriminate).
  assert (Hp : downPayment two_year_loan <= homePrice two_year_loan)
    by (vm_compute; discriminate).
  split; [exact Hy|]. split; [exact HH|]. split; [exact Hd|].
  split; [exact Hp|].
  exact (proj2 (Part001_buy_entry_counts_down_payment_twice
                  two_year_loan 1 Hy) HH Hd Hp).
Defined.

(** X26: in [unnamed/part_001] the savings are added in every pass, the
    pass of year 0 included, and only the down payment is invested, not
    the closing cost: the rent entry of year [y] is
    [downPayment * (1 + investmentReturn/100)^y] plus the reinvested
    total, rounded, and that total has already taken in [y + 1] years of
    savings; the entry of year 0 holds one year of savings. *)
Theorem Part001_rent_entry_has_savings_from_year_0
    (values : Inputs) (y : Z) :
  (0 <= y <= timeHorizon values)%Z ->
  let after := Loop.cumulativeSavings
                 (Part001.state_at values (S (Z.to_nat y))) in
  let before := Part001.state_at values (Z.to_nat y) in
  nth_error (rentNetWorth (Part001.project values)) (Z.to_nat y)
  = Some (nround
            (Fin (downPayment values
                  * (1 + investmentReturn values / 100) ^ y)
             + after)%num)
  /\ after
     = ((Loop.cumulativeSavings before
         + nmax (Fin 0)
             (totalMonthlyOwnership values * Fin 12
              - Fin (Loop.currentRent before * 12)))
        * Fin (1 + investmentReturn values / 100))%num
  /\ Loop.cumulativeSavings (Part001.state_at values 1)
     = ((Fin 0
         + nmax (Fin 0)
             (totalMonthlyOwnership values * Fin 12
              - Fin (initialRent values * 12)))
        * Fin (1 + investmentReturn values / 100))%num.
Proof.
  intros Hy after before. split; [|split].
  - unfold Part001.project, summarise, Part001.final_state.
    cbn [rentNetWorth].
    rewrite Part001_state_at_rentNetWorth by lia.
    rewrite nth_error_map, nth_error_seq.
    replace (Z.to_nat y <? Z.to_nat (timeHorizon values + 1))%nat with true
      by (symmetry; apply Nat.ltb_lt; lia).
    cbn [option_map Nat.add]. now rewrite Z2Nat.id by lia.
  - unfold after, before. now rewrite Part001_savings_step by lia.
  - rewrite Part001_savings_step by lia. reflexivity.
Qed.

Lemma Part001_rent_entry_has_savings_from_year_0_witness :
  (0 <= 0 <= timeHorizon two_year_loan)%Z /\
  nth_error (rentNetWorth (Part001.project two_year_loan)) (Z.to_nat 0)
  = Some (nround
            (Fin (downPayment two_year_loan
                  * (1 + investmentReturn two_year_loan / 100) ^ 0)
             + Loop.cumulativeSavings
                 (Part001.state_at two_year_loan (S (Z.to_nat 0))))%num).
Proof.
  assert (Hy : (0 <= 0 <= timeHorizon two_year_loan)%Z) by (simpl; lia).
  split; [exact Hy|].
  exact (proj1 (Part001_rent_entry_has_savings_from_year_0
                  two_year_loan 0 Hy)).
Defined.

(* ================================================================= *)
(** ** Labels *)

Module UIFacts.

Import Stdlib.Strings.String Stdlib.Strings.Ascii.
Import UI.
Local Open Scope string_scope.

Lemma number_text_inj (a b : Z) : number_text a = number_text b -> a = b.
Proof.
  unfold number_text. intros E.
  assert (Hnil : forall z : Z,
             Z.to_int z <> Decimal.Pos Decimal.Nil
             /\ Z.to_int z <> Decimal.Neg Decimal.Nil).
  { intros [|p|p]; cbn; split; try discriminate;
      intros Hp; injection Hp as Hp;
      exact (DecimalPos.Unsigned.to_uint_nonnil p Hp). }
  apply DecimalZ.to_int_inj.
  assert (Some (Z.to_int a) = Some (Z.to_int b)) as Hs.
  { rewrite <- (DecimalString.NilZero.isi (Z.to_int a)) by apply Hnil.
    rewrite <- (DecimalString.NilZero.isi (Z.to_int b)) by apply Hnil.
    now rewrite E. }
  now injection Hs.
Qed.

Lemma year_label_inj : Finite.Injective year_label.
Proof.
  intros a b E. unfold year_label in E.
  apply number_text_inj.
  cbn [append] in E. now injection E.
Qed.

(** X16: in [src/App.jsx] the chart gets one label per point of either
    series, whatever the input: the labels are ["Year 0"], ["Year 1"], ...
    up to the length of the buy series, the rent series has the same
    length, and no two labels are equal. *)
Theorem chart_labels_match_series (values : Inputs) :
  let r := App.project values in
  chart_labels r
  = List.map (fun i => year_label (Z.of_nat i))
             (seq 0 (List.length (buyNetWorth r)))
  /\ List.length (rentNetWorth r) = List.length (buyNetWorth r)
  /\ NoDup (chart_labels r).
Proof.
  intros r. unfold r.
  rewrite App_buyNetWorth_length, App_rentNetWorth_length.
  unfold chart_labels, App.project, summarise, years_array. cbn [years].
  split; [now rewrite List.map_map|]. split; [reflexivity|].
  apply Finite.Injective_map_NoDup; [exact year_label_inj|].
  apply Finite.Injective_map_NoDup; [|apply seq_NoDup].
  intros a b E. lia.
Qed.

(** *** [formatLabel] *)

Lemma is_upper_space : is_upper " " = false.
Proof. reflexivity. Qed.

Lemma lower_not_upper (c : ascii) : is_lower c = true -> is_upper c = false.
Proof.
  unfold is_lower, is_upper. intros H.
  apply andb_true_iff in H. destruct H as [H1 H2].
  apply Nat.leb_le in H1.
  apply andb_false_iff. right. apply Nat.leb_gt. lia.
Qed.

Lemma toUpperCase_upper (c : ascii) :
  is_lower c = true -> is_upper (toUpperCase c) = true.
Proof.
  unfold toUpperCase. intros H. rewrite H.
  unfold is_lower in H. apply andb_true_iff in H. destruct H as [H1 H2].
  apply Nat.leb_le in H1, H2.
  unfold is_upper. rewrite nat_ascii_embedding by lia.
  apply andb_true_iff. split; apply Nat.leb_le; lia.
Qed.

Lemma toUpperCase_inj (c d : ascii) :
  is_lower c = true -> is_lower d = true ->
  toUpperCase c = toUpperCase d -> c = d.
Proof.
  unfold toUpperCase. intros Hc Hd E. rewrite Hc, Hd in E.
  unfold is_lower in Hc, Hd.
  apply andb_true_iff in Hc, Hd. destruct Hc as [C1 C2], Hd as [D1 D2].
  apply Nat.leb_le in C1, C2, D1, D2.
  apply (f_equal nat_of_ascii) in E.
  rewrite !nat_ascii_embedding in E by lia.
  rewrite <- (ascii_nat_embedding c), <- (ascii_nat_embedding d).
  f_equal. lia.
Qed.

Lemma lower_not_line_terminator (c : ascii) :
  is_lower c = true -> is_line_terminator c = false.
Proof.
  intros H. unfold is_line_terminator.
  apply orb_false_iff. split; apply Ascii.eqb_neq; intros ->; discriminate H.
Qed.

(** The label of a key that starts with a small letter. *)
Lemma formatLabel_starts_lower (c : ascii) (rest : string) :
  is_lower c = true ->
  formatLabel (String c rest) = String (toUpperCase c) (space_capitals rest).
Proof.
  intros H. unfold formatLabel. cbn [space_capitals].
  rewrite (lower_not_upper c H). cbn [capitalize_first].
  now rewrite (lower_not_line_terminator c H).
Qed.

Lemma space_capitals_head (s : string) (c : ascii) (t : string) :
  space_capitals s = String c t -> is_upper c = false.
Proof.
  destruct s as [|d s']; cbn [space_capitals]; [discriminate|].
  destruct (is_upper d) eqn:E; intros H; injection H as <- _;
    [reflexivity | exact E].
Qed.

Lemma space_capitals_inj (s1 s2 : string) :
  space_capitals s1 = space_capitals s2 -> s1 = s2.
Proof.
  revert s2. induction s1 as [|c1 r1 IH]; intros [|c2 r2];
    cbn [space_capitals]; try reflexivity.
  - destruct (is_upper c2); discriminate.
  - destruct (is_upper c1); discriminate.
  - destruct (is_upper c1) eqn:E1, (is_upper c2) eqn:E2; intros H.
    + injection H as -> H. now rewrite (IH _ H).
    + injection H as <- H. symmetry in H.
      apply space_capitals_head in H. congruence.
    + injection H as -> H.
      apply space_capitals_head in H. congruence.
    + injection H as -> H. now rewrite (IH _ H).
Qed.

(** In the output of [space_capitals] a capital is always preceded by a
    space. *)
Lemma space_capitals_separated (s : string) (i : nat) (u : ascii) :
  String.get (S i) (space_capitals s) = Some u -> is_upper u = true ->
  String.get i (space_capitals s) = Some " "%char.
Proof.
  revert i. induction s as [|c r IH]; intros i; cbn [space_capitals].
  - discriminate.
  - destruct (is_upper c) eqn:E.
    + destruct i as [|i]; [reflexivity|].
      cbn [String.get]. destruct i as [|i].
      * cbn [String.get]. intros Hg Hu. exfalso.
        destruct (space_capitals r) as [|d t] eqn:Er; [discriminate|].
        cbn [String.get] in Hg. injection Hg as ->.
        apply space_capitals_head in Er. congruence.
      * intros Hg Hu.
        change (String.get i (space_capitals r) = Some " "%char).
        apply IH; [exact Hg | exact Hu].
    + destruct i as [|i].
      * cbn [String.get]. intros Hg Hu. exfalso.
        destruct (space_capitals r) as [|d t] eqn:Er; [discriminate|].
        cbn [String.get] in Hg. injection Hg as ->.
        apply space_capitals_head in Er. congruence.
      * intros Hg Hu.
        change (String.get i (space_capitals r) = Some " "%char).
        apply IH; [exact Hg | exact Hu].
Qed.

Lemma space_capitals_length (s : string) :
  length (space_capitals s)
  = (length s
     + List.length (List.filter is_upper (list_ascii_of_string s)))%nat.
Proof.
  induction s as [|c r IH]; [reflexivity|].
  cbn [space_capitals list_ascii_of_string List.filter].
  destruct (is_upper c); cbn [length List.length]; rewrite IH; lia.
Qed.

(** X17: for a key that starts with a small letter, as every field name
    does, [formatLabel] gives a label that starts with the matching
    capital, is longer than the key by one character per capital of the
    key, and in which every capital after the first character is preceded
    by a space: the words of a camel-case key are set apart. *)
Theorem formatLabel_sets_words_apart (c : ascii) (rest : string) :
  is_lower c = true ->
  let label := formatLabel (String c rest) in
  String.get 0 label = Some (toUpperCase c)
  /\ is_upper (toUpperCase c) = true
  /\ length label
     = (length (String c rest)
        + List.length
            (List.filter is_upper (list_ascii_of_string (String c rest))))%nat
  /\ (forall (i : nat) (u : ascii),
         String.get (S i) label = Some u -> is_upper u = true ->
         (0 < i)%nat /\ String.get i label = Some " "%char).
Proof.
  intros Hc label. unfold label.
  rewrite (formatLabel_starts_lower c rest Hc).
  split; [reflexivity|]. split; [now apply toUpperCase_upper|]. split.
  - cbn [length list_ascii_of_string List.filter].
    rewrite (lower_not_upper c Hc), space_capitals_length. reflexivity.
  - intros i u Hg Hu. cbn [String.get] in Hg.
    destruct i as [|i].
    + exfalso.
      destruct (space_capitals rest) as [|d t] eqn:Er; [discriminate|].
      cbn [String.get] in Hg. injection Hg as ->.
      apply space_capitals_head in Er. congruence.
    + split; [lia|].
      change (String.get i (space_capitals rest) = Some " "%char).
      now apply (space_capitals_separated rest i u).
Qed.

Lemma formatLabel_sets_words_apart_witness :
  is_lower "h" = true /\
  String.get 0 (formatLabel "homePrice") = Some (toUpperCase "h") /\
  String.get 5 (formatLabel "homePrice") = Some "P"%char /\
  is_upper "P" = true /\
  String.get 4 (formatLabel "homePrice") = Some " "%char.
Proof.
  assert (Hc : is_lower "h" = true) by reflexivity.
  assert (Hg : String.get 5 (formatLabel "homePrice") = Some "P"%char)
    by reflexivity.
  assert (Hu : is_upper "P" = true) by reflexivity.
  destruct (formatLabel_sets_words_apart "h" "omePrice" Hc)
    as (A & _ & _ & B).
  split; [exact Hc|]. split; [exact A|]. split; [exact Hg|].
  split; [exact Hu|]. exact (proj2 (B 4%nat "P"%char Hg Hu)).
Defined.

(** X18: two keys that start with a small letter and get the same label
    are the same key: [formatLabel] never gives two fields one label. *)
Theorem formatLabel_distinguishes_keys (c1 c2 : ascii) (r1 r2 : string) :
  is_lower c1 = true ->
  is_lower c2 = true ->
  formatLabel (String c1 r1) = formatLabel (String c2 r2) ->
  String c1 r1 = String c2 r2.
Proof.
  intros H1 H2.
  rewrite (formatLabel_starts_lower c1 r1 H1),
    (formatLabel_starts_lower c2 r2 H2).
  intros E. injection E as Ec Er.
  rewrite (toUpperCase_inj c1 c2 H1 H2 Ec).
  now rewrite (space_capitals_inj r1 r2 Er).
Qed.

Lemma formatLabel_distinguishes_keys_witness :
  is_lower "h" = true /\
  formatLabel "homePrice" = formatLabel "homePrice" /\
  "homePrice" = "homePrice".
Proof.
  assert (Hc : is_lower "h" = true) by reflexivity.
  assert (He : formatLabel "homePrice" = formatLabel "homePrice")
    by reflexivity.
  split; [exact Hc|]. split; [exact He|].
  exact (formatLabel_distinguishes_keys "h" "h" "omePrice" "omePrice"
           Hc Hc He).
Defined.

End UIFacts.

(* ================================================================= *)
(** ** The state of the form *)

Module FormFacts.

Import Stdlib.Strings.String Stdlib.Strings.Ascii.
Import UI.
Local Open Scope string_scope.

(** *** Units *)

Lemma prefix_append (sub post : string) : prefix sub (sub ++ post) = true.
Proof.
  induction sub as [|c r IH]; cbn [append prefix].
  - now destruct post.
  - destruct (ascii_dec c c) as [_|N]; [exact IH | contradiction].
Qed.

Lemma prefix_split (sub s : string) :
  prefix sub s = true -> exists post : string, s = sub ++ post.
Proof.
  revert s. induction sub as [|c r IH]; intros s H.
  - exists s. reflexivity.
  - destruct s as [|d t]; cbn [prefix] in H; [discriminate|].
    destruct (ascii_dec c d) as [->|N]; [|discriminate].
    destruct (IH t H) as (post & ->). exists post. reflexivity.
Qed.

(** [includes] is the test for a substring. *)
Lemma includes_spec (s sub : string) :
  includes s sub = true <-> exists pre post : string, s = pre ++ sub ++ post.
Proof.
  split.
  - induction s as [|c r IH]; cbn [includes]; intros H.
    + rewrite orb_false_r in H. apply prefix_split in H.
      destruct H as (post & ->). exists "", post. reflexivity.
    + apply orb_true_iff in H. destruct H as [H|H].
      * apply prefix_split in H. destruct H as (post & ->).
        exists "", post. reflexivity.
      * destruct (IH H) as (pre & post & ->).
        exists (String c pre), post. reflexivity.
  - intros (pre & post & ->).
    induction pre as [|c r IH]; cbn [append].
    + destruct (sub ++ post) eqn:E; cbn [includes]; rewrite <- E;
        now rewrite prefix_append.
    + cbn [includes]. rewrite IH. apply orb_true_r.
Qed.

(** X19: each of the nine core fields falls into exactly one of the three
    classes that the substring tests define, and gets the unit and the
    step of that class: [" ($)"] and ["1"] for an amount, [" (%)"] and
    ["0.1"] for a rate, [" (years)"] and ["1"] for a duration. *)
Theorem core_fields_have_one_unit :
  Forall
    (fun key =>
       isCurrency key = true /\ isPercentage key = false
       /\ isYears key = false
       /\ unit_suffix key = " ($)" /\ step key = "1"
       \/ isCurrency key = false /\ isPercentage key = true
          /\ isYears key = false
          /\ unit_suffix key = " (%)" /\ step key = "0.1"
       \/ isCurrency key = false /\ isPercentage key = false
          /\ isYears key = true
          /\ unit_suffix key = " (years)" /\ step key = "1")
    core_keys.
Proof.
  unfold core_keys.
  repeat (apply Forall_cons;
          [first [ left; repeat split; reflexivity
                 | right; left; repeat split; reflexivity
                 | right; right; repeat split; reflexivity ]|]).
  apply Forall_nil.
Qed.

(** *** Objects *)

Lemma get_filter_other (k k' : string) (o : Obj) :
  get k (List.filter (fun p => negb (fst p =? k')) o)
  = if k' =? k then None else get k o.
Proof.
  induction o as [|[k0 w] rest IH]; cbn [List.filter get fst].
  - now destruct (k' =? k).
  - destruct (k0 =? k') eqn:E0; cbn [negb].
    + rewrite IH. apply String.eqb_eq in E0. subst k0.
      destruct (k' =? k); [reflexivity|].
      now destruct (get k rest).
    + cbn [get]. rewrite IH.
      destruct (k' =? k) eqn:E; [|reflexivity].
      apply String.eqb_eq in E. subst k'. now rewrite E0.
Qed.

Lemma get_set (k k' : string) (v : JSValue) (o : Obj) :
  get k (set k' v o) = if k' =? k then Some v else get k o.
Proof.
  induction o as [|[k0 w] rest IH]; cbn [set get].
  - reflexivity.
  - destruct (k0 =? k') eqn:E0.
    + cbn [get]. rewrite get_filter_other.
      apply String.eqb_eq in E0. subst k0.
      destruct (k' =? k); [reflexivity|].
      now destruct (get k rest).
    + cbn [get]. rewrite IH.
      destruct (k' =? k) eqn:E; [reflexivity|].
      reflexivity.
Qed.

Lemma get_fold_set (k : string) (l o : Obj) :
  get k (List.fold_left (fun o p => set (fst p) (snd p) o) l o)
  = match get k l with
    | Some x => Some x
    | None => get k o
    end.
Proof.
  revert o. induction l as [|[k1 v1] l IH]; intros o;
    cbn [List.fold_left get fst snd]; [reflexivity|].
  rewrite IH, get_set.
  destruct (get k l); [reflexivity|].
  now destruct (k1 =? k).
Qed.

Lemma get_app (k : string) (a b : Obj) :
  get k (a ++ b)%list
  = match get k b with
    | Some x => Some x
    | None => get k a
    end.
Proof.
  induction a as [|[k1 v1] a IH]; cbn [List.app get].
  - now destruct (get k b).
  - rewrite IH. now destruct (get k b).
Qed.

(** [{ ...a, ...b }[k]] is [b[k]] where [b] has the key and [a[k]]
    otherwise. *)
Lemma get_spread (k : string) (a b : Obj) :
  get k (spread a b)
  = match get k b with
    | Some x => Some x
    | None => get k a
    end.
Proof.
  unfold spread. rewrite get_fold_set, get_app. cbn [get].
  destruct (get k b); [reflexivity|]. now destruct (get k a).
Qed.


Lemma DEFAULT_OBJECT_defined :
  Forall (fun k => get k DEFAULT_OBJECT <> None) field_names.
Proof.
  unfold field_names, DEFAULT_OBJECT. cbn [List.map fst].
  repeat (apply Forall_cons; [discriminate|]). apply Forall_nil.
Qed.

Section Host.

Variable JSON_parse : string -> option JSValue.
Variable ToNumber : string -> num.

Lemma handleChange_get (key text k : string) (prev : Obj) :
  get k (handleChange ToNumber key text prev)
  = if key =? k
    then Some (if text =? "" then VString "" else VNumber (ToNumber text))
    else get k prev.
Proof.
  unfold handleChange. rewrite get_spread. cbn [get].
  now destruct (key =? k).
Qed.

Lemma initial_values_defined (saved : option string) :
  Forall (fun k => get k (initial_values JSON_parse saved) <> None)
         field_names.
Proof.
  unfold initial_values.
  destruct saved as [text|]; [|exact DEFAULT_OBJECT_defined].
  destruct (text =? ""); [exact DEFAULT_OBJECT_defined|].
  destruct (JSON_parse text) as [parsed|]; [|exact DEFAULT_OBJECT_defined].
  pose proof DEFAULT_OBJECT_defined as HD.
  rewrite Forall_forall in *. intros k Hk.
  rewrite get_spread. destruct (get k (own_props parsed)); [discriminate|].
  now apply HD.
Qed.

Lemma handleChange_defined (key text : string) (prev : Obj) :
  Forall (fun k => get k prev <> None) field_names ->
  Forall (fun k => get k (handleChange ToNumber key text prev) <> None)
         field_names.
Proof.
  intros HD. rewrite Forall_forall in *. intros k Hk.
  rewrite handleChange_get.
  destruct (key =? k); [discriminate | now apply HD].
Qed.

End Host.

(** X20: whatever [localStorage] holds and whatever the user types
    afterwards, each of the twelve fields has a value in the state of the
    form: the calculation never reads [undefined]. *)
Theorem state_defines_every_field
    (JSON_parse : string -> option JSValue) (ToNumber : string -> num)
    (saved : option string) (edits : list (string * string)) :
  Forall
    (fun k =>
       get k (List.fold_left
                (fun values e => handleChange ToNumber (fst e) (snd e) values)
                edits (initial_values JSON_parse saved))
       <> None)
    field_names.
Proof.
  pose proof (initial_values_defined JSON_parse saved) as H0.
  revert H0. generalize (initial_values JSON_parse saved) as values.
  induction edits as [|[key text] edits IH]; intros values H0;
    cbn [List.fold_left fst snd]; [exact H0|].
  apply IH. now apply handleChange_defined.
Qed.



(** X22: when the stored text parses, every key the parsed value has
    replaces the default of that name and every other field keeps its
    default; nothing is validated, so the stored value is taken whatever
    its type. *)
Theorem initial_values_stored_keys_win
    (JSON_parse : string -> option JSValue) (text : string)
    (parsed : JSValue) (k : string) :
  text <> "" ->
  JSON_parse text = Some parsed ->
  get k (initial_values JSON_parse (Some text))
  = match get k (own_props parsed) with
    | Some stored => Some stored
    | None => get k DEFAULT_OBJECT
    end.
Proof.
  intros Ht Hp. unfold initial_values.
  replace (text =? "") with false by (symmetry; now apply String.eqb_neq).
  rewrite Hp. apply get_spread.
Qed.

Lemma initial_values_stored_keys_win_witness :
  "{...}" <> "" /\
  (fun _ : string =>
     Some (VObject [("homePrice", VNull)]%list)) "{...}"
  = Some (VObject [("homePrice", VNull)]%list) /\
  get "homePrice"
    (initial_values
       (fun _ => Some (VObject [("homePrice", VNull)]%list))
       (Some "{...}"))
  = Some VNull.
Proof.
  assert (Ht : "{...}" <> "") by discriminate.
  assert (Hp : (fun _ : string =>
                  Some (VObject [("homePrice", VNull)]%list)) "{...}"
               = Some (VObject [("homePrice", VNull)]%list))
    by reflexivity.
  split; [exact Ht|]. split; [exact Hp|].
  exact (initial_values_stored_keys_win
           (fun _ => Some (VObject [("homePrice", VNull)]%list))
           "{...}" (VObject [("homePrice", VNull)]%list) "homePrice"
           Ht Hp).
Defined.

(** X23: an edit changes the field it is made in and no other: the field
    holds the empty string when the input was cleared, never 0, and
    [Number(text)] otherwise, and every other key reads as before. *)
Theorem handleChange_sets_one_field
    (ToNumber : string -> num) (key text k : string) (prev : Obj) :
  get k (handleChange ToNumber key text prev)
  = if key =? k
    then Some (if text =? "" then VString "" else VNumber (ToNumber text))
    else get k prev.
Proof. apply handleChange_get. Qed.



End FormFacts.
